(** * pam_limits: reconciliation of one limit directive in limits.conf

    A shallow embedding of [system/pam_limits.py] (function [main]) and
    theorems about the line-by-line reconciliation it performs.

    Python 2 [str] values are modelled as [string] (8-bit characters),
    Python integers as [Z], the open file as the list of its physical
    lines (terminators kept), the temporary file as the list of the
    chunks handed to [nf.write], and the file system as a finite map from
    paths to files. *)

From Stdlib Require Import ZArith Ascii String List Bool Lia.
From Stdlib Require Import Numbers.DecimalString Numbers.DecimalPos.
From stdpp Require Import base gmap strings.

Import ListNotations.
Open Scope string_scope.
Open Scope list_scope.
Open Scope Z_scope.

(** ** Python string primitives used by the module *)

Module Py.

Definition TAB : string := String "009"%char EmptyString.
Definition NL : string := String "010"%char EmptyString.

(** Characters matched by [\s] in a byte pattern and removed by
    [str.strip()]: space, \t, \n, \v, \f, \r. *)
Definition isspace (c : ascii) : bool :=
  let n := nat_of_ascii c in
  (Nat.eqb n 32 || (Nat.leb 9 n && Nat.leb n 13))%bool.

(** [not s] for a string: true exactly on the empty string. *)
Definition is_empty (s : string) : bool :=
  match s with EmptyString => true | String _ _ => false end.

(** [s.startswith(pre)] *)
Fixpoint startswith (s pre : string) : bool :=
  match pre with
  | EmptyString => true
  | String a pre' =>
      match s with
      | EmptyString => false
      | String b s' => (Ascii.eqb b a && startswith s' pre')%bool
      end
  end.

(** [re.sub(r'\s+', ' ', s)]: every maximal run of whitespace becomes one
    space. [in_run] tells that the previous character was whitespace. *)
Fixpoint sub_space (in_run : bool) (s : string) : string :=
  match s with
  | EmptyString => EmptyString
  | String c r =>
      if isspace c
      then (if in_run then sub_space true r
            else String " "%char (sub_space true r))
      else String c (sub_space false r)
  end.

Fixpoint lstrip (s : string) : string :=
  match s with
  | EmptyString => EmptyString
  | String c r => if isspace c then lstrip r else s
  end.

Fixpoint rstrip (s : string) : string :=
  match s with
  | EmptyString => EmptyString
  | String c r =>
      let r' := rstrip r in
      if (isspace c && is_empty r')%bool then EmptyString else String c r'
  end.

Definition strip (s : string) : string := rstrip (lstrip s).

(** [s.split(sep, 1)]: the text before the first [sep] and, when [sep]
    occurs, the text after it. *)
Fixpoint split1 (sep : ascii) (s : string) : string * option string :=
  match s with
  | EmptyString => (EmptyString, None)
  | String c r =>
      if Ascii.eqb c sep then (EmptyString, Some r)
      else let '(h, t) := split1 sep r in (String c h, t)
  end.

(** [s.split(sep)] with an explicit one-character separator: empty fields
    are kept and the empty string gives one empty field. *)
Fixpoint split (sep : ascii) (s : string) : list string :=
  match s with
  | EmptyString => [EmptyString]
  | String c r =>
      if Ascii.eqb c sep then EmptyString :: split sep r
      else match split sep r with
           | h :: t => String c h :: t
           | [] => [String c EmptyString]
           end
  end.

Definition digit_val (c : ascii) : option Z :=
  let n := nat_of_ascii c in
  if (Nat.leb 48 n && Nat.leb n 57)%bool then Some (Z.of_nat (n - 48))
  else None.

Fixpoint digits (acc : Z) (s : string) : option Z :=
  match s with
  | EmptyString => Some acc
  | String c r =>
      match digit_val c with
      | Some d => digits (10 * acc + d) r
      | None => None
      end
  end.

(** [int(s)] in base 10: surrounding whitespace, an optional sign, then at
    least one decimal digit; [None] stands for [ValueError]. *)
Definition int (s : string) : option Z :=
  match strip s with
  | EmptyString => None
  | String c r =>
      if Ascii.eqb c "+"%char then
        (if is_empty r then None else digits 0 r)
      else if Ascii.eqb c "-"%char then
        (if is_empty r then None else option_map Z.opp (digits 0 r))
      else digits 0 (String c r)
  end.

(** [str(n)] for an integer. *)
Definition str (n : Z) : string := NilZero.string_of_int (Z.to_int n).

(** Iterating over an open text file: the physical lines, each with its
    terminating newline except possibly the last. *)
Fixpoint readlines (s : string) : list string :=
  match s with
  | EmptyString => []
  | String c r =>
      if Ascii.eqb c "010"%char then String c EmptyString :: readlines r
      else match readlines r with
           | l :: ls => String c l :: ls
           | [] => [String c EmptyString]
           end
  end.

(** [s.endswith('\n')] *)
Fixpoint endswith_nl (s : string) : bool :=
  match s with
  | EmptyString => false
  | String c r =>
      match r with
      | EmptyString => Ascii.eqb c "010"%char
      | String _ _ => endswith_nl r
      end
  end.

(** The bytes of a file written chunk by chunk. *)
Definition join (chunks : list string) : string :=
  fold_right String.append EmptyString chunks.

End Py.

(** ** The module's parameters and the state of its main loop *)

(** [module.params], after argument parsing. *)
Record params := Params {
  domain : string;
  limit_type : string;
  limit_item : string;
  value : Z;
  use_max : bool;
  use_min : bool;
  backup : bool;
  dest : string;
  comment : string
}.

(** The local variables of [main] that the loop reads and assigns; [nf] is
    the sequence of chunks written to the temporary file so far. *)
Record loop_state := LoopState {
  nf : list string;
  found : bool;
  has_eof : bool;
  new_value : Z;
  new_comment : string;
  changed : bool;
  message : string
}.

Definition nf_write (chunk : string) (st : loop_state) : loop_state :=
  LoopState (nf st ++ [chunk]) (found st) (has_eof st) (new_value st)
            (new_comment st) (changed st) (message st).

Definition set_found (b : bool) (st : loop_state) : loop_state :=
  LoopState (nf st) b (has_eof st) (new_value st) (new_comment st)
            (changed st) (message st).

Definition set_has_eof (b : bool) (st : loop_state) : loop_state :=
  LoopState (nf st) (found st) b (new_value st) (new_comment st)
            (changed st) (message st).

Definition set_new_value (v : Z) (st : loop_state) : loop_state :=
  LoopState (nf st) (found st) (has_eof st) v (new_comment st)
            (changed st) (message st).

Definition set_new_comment (c : string) (st : loop_state) : loop_state :=
  LoopState (nf st) (found st) (has_eof st) (new_value st) c
            (changed st) (message st).

Definition set_changed (b : bool) (st : loop_state) : loop_state :=
  LoopState (nf st) (found st) (has_eof st) (new_value st) (new_comment st)
            b (message st).

Definition set_message (m : string) (st : loop_state) : loop_state :=
  LoopState (nf st) (found st) (has_eof st) (new_value st) (new_comment st)
            (changed st) m.

(** The variables as they stand just before the loop (lines 124-148). *)
Definition initial (p : params) : loop_state :=
  LoopState [] false false (value p) (comment p) false "".

Inductive exception := ValueError.

Inductive outcome (A : Type) :=
| Normal (a : A)
| Raised (e : exception).
Arguments Normal {A} a.
Arguments Raised {A} e.

Definition EOF_MARK : string := "# End of file".

(** ** The expressions the loop body evaluates on a line *)

(** [re.sub(space_pattern, ' ', line).strip()] *)
Definition normalized (line : string) : string :=
  Py.strip (Py.sub_space false line).

(** [newline.split('#',1)[0]] followed by [rstrip()] *)
Definition record_body (line : string) : string :=
  Py.rstrip (fst (Py.split1 "#" (normalized line))).

(** [line.split('#',1)[1]], or [''] when the index is out of range *)
Definition old_comment_of (line : string) : string :=
  match snd (Py.split1 "#" line) with
  | Some c => c
  | None => ""
  end.

(** [newline.split(' ')] *)
Definition line_fields_of (line : string) : list string :=
  Py.split " " (record_body line).

(** Lines 173-177: the comment variable after a line that reached them. *)
Definition next_comment (cur line : string) : string :=
  let c := if Py.is_empty cur then old_comment_of line else cur in
  if Py.is_empty c then c else Py.TAB +:+ "#" +:+ c.

(** Lines 207 and 218. *)
Definition new_limit (p : params) (st : loop_state) : string :=
  domain p +:+ Py.TAB +:+ limit_type p +:+ Py.TAB +:+ limit_item p +:+ Py.TAB
    +:+ Py.str (new_value st) +:+ new_comment st +:+ Py.NL.

Definition key_matches (p : params) (d t i : string) : bool :=
  (String.eqb d (domain p) && String.eqb t (limit_type p)
     && String.eqb i (limit_item p))%bool.

(** ** The loop body (lines 152-214) *)

Definition process_line (p : params) (st : loop_state) (line : string)
  : outcome loop_state :=
  if Py.startswith line EOF_MARK then Normal (set_has_eof true st)
  else if Py.startswith line "#" then Normal (nf_write line st)
  else if Py.is_empty (normalized line) then Normal (nf_write line st)
  else
    let st := set_new_comment (next_comment (new_comment st) line) st in
    match line_fields_of line with
    | [line_domain; line_type; line_item; f3] =>
        match Py.int f3 with
        | None => Raised ValueError
        | Some actual_value =>
            if key_matches p line_domain line_type line_item then
              let st := set_found true st in
              if value p =? actual_value then
                Normal (nf_write line (set_message line st))
              else
                let st := if use_max p
                          then set_new_value (Z.max (value p) actual_value) st
                          else st in
                let st := if use_min p
                          then set_new_value (Z.min (value p) actual_value) st
                          else st in
                if negb (new_value st =? actual_value) then
                  let st := set_changed true st in
                  Normal (nf_write (new_limit p st)
                            (set_message (new_limit p st) st))
                else Normal (nf_write line (set_message line st))
            else Normal (nf_write line st)
        end
    | _ => Normal (nf_write line st)
    end.

(** [for line in f]: an exception leaves the loop with the variables as
    they were when the offending line was read. *)
Fixpoint for_lines (p : params) (lines : list string) (st : loop_state)
  : loop_state * option exception :=
  match lines with
  | [] => (st, None)
  | line :: rest =>
      match process_line p st line with
      | Normal st' => for_lines p rest st'
      | Raised e => (st, Some e)
      end
  end.

(** Lines 216-223: the record is appended when the key was never found,
    then the end-of-file marker is written back. *)
Definition append_missing (p : params) (st : loop_state) : loop_state :=
  if found st then st
  else
    let st := set_changed true st in
    nf_write (new_limit p st) (set_message (new_limit p st) st).

Definition write_eof (st : loop_state) : loop_state :=
  if has_eof st then nf_write EOF_MARK st else st.

(** Lines 146-223 on the lines of the opened file. *)
Definition reconcile_lines (p : params) (lines : list string)
  : loop_state * option exception :=
  match for_lines p lines (initial p) with
  | (st, None) => (write_eof (append_missing p st), None)
  | (st, Some e) => (st, Some e)
  end.

(** Lines 139-223 on the content of the opened file. *)
Definition reconcile (p : params) (content : string)
  : loop_state * option exception :=
  reconcile_lines p (Py.readlines content).

(** What one run leaves in the temporary file and reports, when it gets
    to the end: the new content, [changed] and [msg]. *)
Definition run (p : params) (content : string)
  : option (string * bool * string) :=
  match reconcile p content with
  | (st, None) => Some (Py.join (nf st), changed st, message st)
  | (_, Some _) => None
  end.

(** ** The whole of [main] over a file system *)

Record file := File { writable : bool; data : string }.

Inductive termination :=
| fail_json (msg : string)
| traceback (e : exception)
| exit_json (changed_ : bool) (msg : string) (backup_file : option string).

Section Main.

(** [tempfile.NamedTemporaryFile], [module.backup_local] and
    [module.atomic_move] are services of the Python library and of
    [AnsibleModule]; they are modelled by their effect on the file system.
    The two variables are the names the first two pick. *)
Variable tmp_name : string.
Variable backup_name : string.

(** [module.atomic_move(src, dst)]: [dst] receives the content of [src]
    and keeps its own permission bits; [src] is gone. *)
Definition atomic_move (src dst : string) (fs : gmap string file)
  : gmap string file :=
  match fs !! src with
  | Some s =>
      let w := match fs !! dst with
               | Some d => writable d
               | None => true
               end in
      <[dst := File w (data s)]> (delete src fs)
  | None => fs
  end.

Definition main (p : params) (fs : gmap string file)
  : gmap string file * termination :=
  match fs !! dest p with
  | None =>
      (fs, fail_json (dest p +:+
             " is not visible (check presence, access rights, use sudo)"))
  | Some f =>
      if negb (writable f) then
        (fs, fail_json (dest p +:+ " is not writable. Use sudo"))
      else if (use_max p && use_min p)%bool then
        (fs, fail_json "Cannot use use_min and use_max at the same time.")
      else
        let fs := if backup p then <[backup_name := f]> fs else fs in
        match reconcile p (data f) with
        | (st, Some e) =>
            (<[tmp_name := File true (Py.join (nf st))]> fs, traceback e)
        | (st, None) =>
            (atomic_move tmp_name (dest p)
               (<[tmp_name := File true (Py.join (nf st))]> fs),
             exit_json (changed st) (message st)
               (if backup p then Some backup_name else None))
        end
  end.

End Main.

(** ** Classification of a line, by the tests of the loop body *)

(** The loop body tests a line in this order: end-of-file marker, comment,
    blank after normalisation, number of fields, integer value. *)
Inductive line_class :=
| Sentinel
| CommentLine
| Blank
| Malformed
| BadValue (d t i f3 : string)
| RecordLine (d t i : string) (actual_value : Z).

Definition classify (line : string) : line_class :=
  if Py.startswith line EOF_MARK then Sentinel
  else if Py.startswith line "#" then CommentLine
  else if Py.is_empty (normalized line) then Blank
  else match line_fields_of line with
       | [d; t; i; f3] =>
           match Py.int f3 with
           | Some v => RecordLine d t i v
           | None => BadValue d t i f3
           end
       | _ => Malformed
       end.

Definition is_sentinel (line : string) : bool := Py.startswith line EOF_MARK.

Definition not_sentinel (line : string) : bool := negb (is_sentinel line).

(** A chunk that cannot be mistaken for the marker the module writes last:
    a copied line, which does not start with the marker, or a record line,
    which ends with a newline. *)
Definition body_chunk (c : string) : Prop :=
  is_sentinel c = false \/ Py.endswith_nl c = true.

(** Lines that the loop is meant to copy as they are: comments, blank
    lines, lines that do not split into four fields (a line with five
    fields among them, whatever its first three are) and records of
    another key. *)
Inductive passthrough_line (p : params) (line : string) : Prop :=
| pass_comment : classify line = CommentLine -> passthrough_line p line
| pass_blank : classify line = Blank -> passthrough_line p line
| pass_malformed : classify line = Malformed -> passthrough_line p line
| pass_five_fields :
    length (line_fields_of line) = 5%nat -> passthrough_line p line
| pass_other_key d t i v :
    classify line = RecordLine d t i v -> key_matches p d t i = false ->
    passthrough_line p line.

(** The value the specification gives to a matching line whose value [v]
    differs from the requested one: the maximum under [use_max], the
    minimum under [use_min], the requested value otherwise. It is compared
    with what lines 198-202 leave in [new_value]. *)
Definition policy_value (p : params) (v : Z) : Z :=
  if use_max p then Z.max (value p) v
  else if use_min p then Z.min (value p) v
  else value p.

(** ** Sample requests and files *)

Module Sample.

Definition limits_conf : string := "/etc/security/limits.conf".

(** [domain=joe limit_type=soft limit_item=nofile value=n comment=c] *)
Definition joe (n : Z) (c : string) : params :=
  Params "joe" "soft" "nofile" n false false false limits_conf c.

Definition joe_min (n : Z) : params :=
  Params "joe" "soft" "nofile" n false true false limits_conf "".

Definition joe_both (n : Z) : params :=
  Params "joe" "soft" "nofile" n true true false limits_conf "".

(** A marker line first, then a record in the middle and a second
    marker line. *)
Definition two_marks : string :=
  "# End of file" +:+ Py.NL +:+ "joe soft nofile 100" +:+ Py.NL
    +:+ "# End of file, really" +:+ Py.NL.

(** The marker first and a last line without a newline. *)
Definition mark_then_open_line : string :=
  "# End of file" +:+ Py.NL +:+ "joe soft nofile 200".

(** A stock file: comments and the marker. *)
Definition stock : string :=
  "# /etc/security/limits.conf" +:+ Py.NL +:+ "#" +:+ Py.NL
    +:+ "# End of file" +:+ Py.NL.

(** A record with a trailing comment, then the record of joe with a
    comment of its own. *)
Definition two_records : string :=
  "root soft core 0 #no core dumps" +:+ Py.NL
    +:+ "joe soft nofile 100 #was 100" +:+ Py.NL.

Definition one_record : string :=
  "root soft core 0 #no core dumps" +:+ Py.NL.

(** A record whose value is not a number, after a comment line. *)
Definition bad_value : string :=
  "# limits" +:+ Py.NL +:+ "joe soft nofile lots" +:+ Py.NL.

(** A last line without a newline and no record of joe. *)
Definition open_last_line : string := "root soft core 0".

(** The record line the module builds for joe with value [n], followed
    by [tail]. *)
Definition joe_line (n tail : string) : string :=
  "joe" +:+ Py.TAB +:+ "soft" +:+ Py.TAB +:+ "nofile" +:+ Py.TAB
    +:+ n +:+ tail +:+ Py.NL.

(** [stock] after one and after two runs of [joe 64000 "max files"]. *)
Definition stock_once : string :=
  "# /etc/security/limits.conf" +:+ Py.NL +:+ "#" +:+ Py.NL
    +:+ joe_line "64000" "max files"
    +:+ "# End of file".

Definition stock_twice : string :=
  "# /etc/security/limits.conf" +:+ Py.NL +:+ "#" +:+ Py.NL
    +:+ joe_line "64000" "max files"
    +:+ joe_line "64000" (Py.TAB +:+ "#max files")
    +:+ "# End of file".

(** A request whose domain is the marker text, and a file that is the
    marker line alone. *)
Definition marker_domain : params :=
  Params "# End of file" "soft" "nofile" 5 false false false limits_conf "".

Definition only_mark : string := "# End of file" +:+ Py.NL.

(** A request for the domain [file], and a file with the marker line and
    an unfinished comment line without newline. *)
Definition file_domain : params :=
  Params "file" "soft" "nofile" 5 false false false limits_conf "".

Definition mark_then_open_comment : string :=
  "# End of file" +:+ Py.NL +:+ "# End of ".

Definition tmp : string := "/tmp/tmpq1w2e3".
Definition bak : string := "/etc/security/limits.conf.4242.2015-06-01~".

Definition fs_with (content : string) : gmap string file :=
  {[ limits_conf := File true content ]}.

End Sample.

(** ** What a line does to the run, read off its class *)

(** The line is a record of the requested key (line 191). *)
Definition line_matches (p : params) (line : string) : bool :=
  match classify line with
  | RecordLine d t i _ => key_matches p d t i
  | _ => false
  end.

(** The line is a record of the requested key whose value the policy
    replaces (lines 193-205). *)
Definition line_rewritten (p : params) (line : string) : bool :=
  match classify line with
  | RecordLine d t i v =>
      (key_matches p d t i && negb (policy_value p v =? v))%bool
  | _ => false
  end.

(** The line makes [int] raise (line 188). *)
Definition line_bad_value (line : string) : bool :=
  match classify line with
  | BadValue _ _ _ _ => true
  | _ => false
  end.

(** The chunk written for a line that is not a marker line: the line as
    it was read, or, for a line the policy rewrites, a record built by
    [new_limit] with the requested value. *)
Definition chunk_of (p : params) (line chunk : string) : Prop :=
  if line_rewritten p line
  then exists st, chunk = new_limit p st /\ new_value st = value p
  else chunk = line.

(** The invariant of [new_value]: with no policy flag it is the requested
    value. *)
Definition new_value_ok (p : params) (st : loop_state) : Prop :=
  use_max p = false -> use_min p = false -> new_value st = value p.

(** ** Requests whose record can be read back *)

(** A string without whitespace and without [#]. *)
Fixpoint plain (s : string) : bool :=
  match s with
  | EmptyString => true
  | String c r =>
      (negb (Py.isspace c) && negb (Ascii.eqb c "#") && plain r)%bool
  end.

(** A field as line 179 yields them on a well-formed line: not empty, no
    whitespace, no [#]. *)
Definition is_token (s : string) : bool :=
  (negb (Py.is_empty s) && plain s)%bool.

(** The record line of lines 207 and 218 for the requested value, with
    the comment suffix [c]. *)
Definition record_text (p : params) (c : string) : string :=
  domain p +:+ Py.TAB +:+ limit_type p +:+ Py.TAB +:+ limit_item p +:+ Py.TAB
    +:+ Py.str (value p) +:+ c +:+ Py.NL.

Fixpoint no_newline (s : string) : bool :=
  match s with
  | EmptyString => true
  | String c r => (negb (Ascii.eqb c "010") && no_newline r)%bool
  end.

(** ** The run without its variables *)

(** The comment variable after a line (lines 152-177): comment lines,
    marker lines and blank lines leave it alone. *)
Definition line_comment (c line : string) : string :=
  if Py.startswith line "#" then c
  else if Py.is_empty (normalized line) then c
  else next_comment c line.

Definition comment_after (c : string) (lines : list string) : string :=
  fold_left line_comment lines c.

(** What the loop writes for the lines, given the comment variable before
    the first of them. *)
Fixpoint rewrite_lines (p : params) (c : string) (lines : list string)
  : list string :=
  match lines with
  | [] => []
  | line :: rest =>
      let c' := line_comment c line in
      (if is_sentinel line then []
       else if line_rewritten p line then [record_text p c']
            else [line])
        ++ rewrite_lines p c' rest
  end.

(** The content a run leaves in the temporary file. *)
Definition rewrite_file (p : params) (content : string) : string :=
  let lines := Py.readlines content in
  Py.join
    (rewrite_lines p (comment p) lines
       ++ (if List.existsb (line_matches p) lines then []
           else [record_text p (comment_after (comment p) lines)])
       ++ (if List.existsb is_sentinel lines then [EOF_MARK] else [])).

(** The [changed] a run reports. *)
Definition reports_change (p : params) (content : string) : bool :=
  let lines := Py.readlines content in
  (List.existsb (line_rewritten p) lines
   || negb (List.existsb (line_matches p) lines))%bool.

(** The [msg] a run reports: the record appended when the key is absent,
    else what was written for the last record of the key. [m] is the
    message so far, [c] the comment variable so far. *)
Fixpoint message_after (p : params) (c m : string) (lines : list string)
  : string :=
  match lines with
  | [] => m
  | line :: rest =>
      let c' := line_comment c line in
      message_after p c'
        (if line_matches p line
         then (if line_rewritten p line then record_text p c' else line)
         else m)
        rest
  end.

Definition reports_line (p : params) (content : string) : string :=
  let lines := Py.readlines content in
  if List.existsb (line_matches p) lines
  then message_after p (comment p) "" lines
  else record_text p (comment_after (comment p) lines).

(** The line gets as far as lines 173-177, where the comment variable is
    assigned. *)
Definition reaches_comment (line : string) : bool :=
  (negb (Py.startswith line "#") && negb (Py.is_empty (normalized line)))%bool.

(** [n] times a tab and a hash in front of [c]. *)
Fixpoint tab_hash (n : nat) (c : string) : string :=
  match n with
  | O => c
  | S k => Py.TAB +:+ "#" +:+ tab_hash k c
  end.

(** The choices of the argument specification (lines 93-95, 103-104). *)
Definition pam_items : list string :=
  ["core"; "data"; "fsize"; "memlock"; "nofile"; "rss"; "stack"; "cpu";
   "nproc"; "as"; "maxlogins"; "maxsyslogins"; "priority"; "locks";
   "sigpending"; "msgqueue"; "nice"; "rtprio"; "chroot"].

Definition pam_types : list string := ["soft"; "hard"; "-"].

(** ** Lines of the output that start with the marker *)

(** A string whose only newline, if any, is its last character: a
    physical line, or what follows the first hash of one. *)
Fixpoint nl_at_end_only (s : string) : bool :=
  match s with
  | EmptyString => true
  | String c r =>
      if Ascii.eqb c "010" then Py.is_empty r else nl_at_end_only r
  end.

(** A chunk the run writes before the marker: a line of the input that is
    not a marker line, or a record built by [new_limit] while the comment
    variable has no newline but at its end. *)
Definition written_chunk (p : params) (lines : list string) (ch : string)
  : Prop :=
  (In ch lines /\ is_sentinel ch = false) \/
  (exists st, ch = new_limit p st /\ nl_at_end_only (new_comment st) = true).

(** ** Basic facts about the primitives *)

Lemma startswith_mark_hash line :
  Py.startswith line EOF_MARK = true -> Py.startswith line "#" = true.
Proof.
  destruct line as [|c r]; cbn [Py.startswith EOF_MARK]; [discriminate|].
  destruct (Ascii.eqb c "#"); [|discriminate].
  intros _. destruct r; reflexivity.
Qed.

Lemma hash_line_fields line :
  Py.startswith line "#" = true -> line_fields_of line = [""].
Proof.
  destruct line as [|c r]; cbn [Py.startswith]; [discriminate|].
  destruct (Ascii.eqb c "#") eqn:E; [|discriminate].
  apply Ascii.eqb_eq in E. subst c. intros _.
  unfold line_fields_of, record_body, normalized, Py.strip.
  reflexivity.
Qed.

Lemma blank_line_fields line :
  Py.is_empty (normalized line) = true -> line_fields_of line = [""].
Proof.
  unfold line_fields_of, record_body. intros H.
  destruct (normalized line); [reflexivity|discriminate].
Qed.

(** A line with any number of fields other than one got past the first
    three tests of the loop body. *)
Lemma fields_reach_split line :
  line_fields_of line <> [""] ->
  Py.startswith line EOF_MARK = false /\
  Py.startswith line "#" = false /\
  Py.is_empty (normalized line) = false.
Proof.
  intros H. repeat split.
  - destruct (Py.startswith line EOF_MARK) eqn:E; [|reflexivity].
    elim H. apply hash_line_fields, startswith_mark_hash, E.
  - destruct (Py.startswith line "#") eqn:E; [|reflexivity].
    elim H. apply hash_line_fields, E.
  - destruct (Py.is_empty (normalized line)) eqn:E; [|reflexivity].
    elim H. apply blank_line_fields, E.
Qed.

Lemma classify_four_fields line d t i f3 :
  line_fields_of line = [d; t; i; f3] ->
  classify line = match Py.int f3 with
                  | Some v => RecordLine d t i v
                  | None => BadValue d t i f3
                  end.
Proof.
  intros H. unfold classify.
  destruct (fields_reach_split line) as (-> & -> & ->);
    [rewrite H; discriminate|].
  rewrite H. reflexivity.
Qed.

Lemma classify_five_fields line :
  length (line_fields_of line) = 5%nat -> classify line = Malformed.
Proof.
  intros H. unfold classify.
  destruct (fields_reach_split line) as (-> & -> & ->).
  { intros E. rewrite E in H. discriminate. }
  destruct (line_fields_of line) as [|a [|b [|c [|d [|e l]]]]];
    try reflexivity; discriminate.
Qed.

Lemma classify_record_inv line d t i v :
  classify line = RecordLine d t i v ->
  Py.startswith line EOF_MARK = false /\
  Py.startswith line "#" = false /\
  Py.is_empty (normalized line) = false /\
  exists f3, line_fields_of line = [d; t; i; f3] /\ Py.int f3 = Some v.
Proof.
  unfold classify.
  destruct (Py.startswith line EOF_MARK); [discriminate|].
  destruct (Py.startswith line "#"); [discriminate|].
  destruct (Py.is_empty (normalized line)); [discriminate|].
  destruct (line_fields_of line) as [|a [|b [|c [|f3 [|e l]]]]];
    try discriminate.
  destruct (Py.int f3) as [v'|] eqn:E; [|discriminate].
  intros [= -> -> -> ->]. repeat split; eauto.
Qed.

(** ** The loop body on each class of line *)

Lemma process_line_record p st line d t i v :
  classify line = RecordLine d t i v ->
  process_line p st line =
    let st := set_new_comment (next_comment (new_comment st) line) st in
    if key_matches p d t i then
      let st := set_found true st in
      if value p =? v then Normal (nf_write line (set_message line st))
      else
        let st := if use_max p
                  then set_new_value (Z.max (value p) v) st else st in
        let st := if use_min p
                  then set_new_value (Z.min (value p) v) st else st in
        if negb (new_value st =? v) then
          let st := set_changed true st in
          Normal (nf_write (new_limit p st) (set_message (new_limit p st) st))
        else Normal (nf_write line (set_message line st))
    else Normal (nf_write line st).
Proof.
  intros H. apply classify_record_inv in H.
  destruct H as (E1 & E2 & E3 & f3 & E4 & E5).
  unfold process_line. rewrite E1, E2, E3, E4, E5. reflexivity.
Qed.

Lemma process_line_sentinel p st line :
  classify line = Sentinel -> process_line p st line = Normal (set_has_eof true st).
Proof.
  unfold classify, process_line.
  destruct (Py.startswith line EOF_MARK); [reflexivity|].
  destruct (Py.startswith line "#"); [discriminate|].
  destruct (Py.is_empty (normalized line)); [discriminate|].
  destruct (line_fields_of line) as [|a [|b [|c [|f3 [|e l]]]]];
    try discriminate.
  destruct (Py.int f3); discriminate.
Qed.

Lemma process_line_comment_or_blank p st line :
  classify line = CommentLine \/ classify line = Blank ->
  process_line p st line = Normal (nf_write line st).
Proof.
  unfold classify, process_line.
  destruct (Py.startswith line EOF_MARK); [intros [?|?]; discriminate|].
  destruct (Py.startswith line "#"); [reflexivity|].
  destruct (Py.is_empty (normalized line)); [reflexivity|].
  destruct (line_fields_of line) as [|a [|b [|c [|f3 [|e l]]]]];
    try (intros [?|?]; discriminate).
  destruct (Py.int f3); intros [?|?]; discriminate.
Qed.

Lemma process_line_malformed p st line :
  classify line = Malformed ->
  process_line p st line =
    Normal (nf_write line
              (set_new_comment (next_comment (new_comment st) line) st)).
Proof.
  unfold classify, process_line.
  destruct (Py.startswith line EOF_MARK); [discriminate|].
  destruct (Py.startswith line "#"); [discriminate|].
  destruct (Py.is_empty (normalized line)); [discriminate|].
  destruct (line_fields_of line) as [|a [|b [|c [|f3 [|e l]]]]];
    try reflexivity.
  destruct (Py.int f3); discriminate.
Qed.

Lemma process_line_bad_value p st line d t i f3 :
  classify line = BadValue d t i f3 ->
  process_line p st line = Raised ValueError.
Proof.
  unfold classify, process_line.
  destruct (Py.startswith line EOF_MARK); [discriminate|].
  destruct (Py.startswith line "#"); [discriminate|].
  destruct (Py.is_empty (normalized line)); [discriminate|].
  destruct (line_fields_of line) as [|a [|b [|c [|f [|e l]]]]];
    try discriminate.
  destruct (Py.int f); [discriminate|reflexivity].
Qed.

(** Case analysis on the class of a line, with the matching equation for
    [process_line] put in place of the call. *)
Ltac by_class p st line :=
  let C := fresh "C" in
  destruct (classify line) as [ | | | | ? ? ? ? | ? ? ? ?] eqn:C;
  [ rewrite (process_line_sentinel p st line C)
  | rewrite (process_line_comment_or_blank p st line (or_introl C))
  | rewrite (process_line_comment_or_blank p st line (or_intror C))
  | rewrite (process_line_malformed p st line C)
  | rewrite (process_line_bad_value p st line _ _ _ _ C)
  | rewrite (process_line_record p st line _ _ _ _ C) ].

(** ** Invariants of the loop *)

(** Without a policy flag nothing assigns [new_value]. *)
Lemma process_line_new_value p st line st' :
  use_max p = false -> use_min p = false ->
  process_line p st line = Normal st' -> new_value st' = new_value st.
Proof.
  intros Hmax Hmin. by_class p st line; cbv zeta; rewrite ?Hmax, ?Hmin;
    try (intros [= <-]; reflexivity); try discriminate.
  destruct (key_matches p d t i); [|intros [= <-]; reflexivity].
  destruct (value p =? actual_value); [intros [= <-]; reflexivity|].
  match goal with |- context [negb ?b] => destruct b end;
    intros [= <-]; reflexivity.
Qed.

Lemma for_lines_new_value p lines : forall st st' e,
  use_max p = false -> use_min p = false ->
  for_lines p lines st = (st', e) -> new_value st' = new_value st.
Proof.
  induction lines as [|line rest IH]; intros st st' e Hmax Hmin; simpl.
  - intros [= <- _]. reflexivity.
  - destruct (process_line p st line) as [st1|x] eqn:E.
    + intros H. rewrite (IH _ _ _ Hmax Hmin H).
      eapply process_line_new_value; eauto.
    + intros [= <- _]. reflexivity.
Qed.

(** The loop only ever appends to the temporary file. *)
Lemma process_line_nf p st line st' :
  process_line p st line = Normal st' -> exists tail, nf st' = nf st ++ tail.
Proof.
  by_class p st line; cbv zeta; try discriminate;
    try (intros [= <-]; simpl; eauto; exists []; rewrite app_nil_r; reflexivity).
  destruct (key_matches p d t i); [|intros [= <-]; simpl; eauto].
  destruct (value p =? actual_value); [intros [= <-]; simpl; eauto|].
  match goal with |- context [negb ?b] => destruct b end;
    intros [= <-]; simpl; destruct (use_max p), (use_min p); simpl; eauto.
Qed.

Lemma for_lines_nf p lines : forall st st' e,
  for_lines p lines st = (st', e) -> exists tail, nf st' = nf st ++ tail.
Proof.
  induction lines as [|line rest IH]; intros st st' e; simpl.
  - intros [= <- _]. exists []. rewrite app_nil_r. reflexivity.
  - destruct (process_line p st line) as [st1|x] eqn:E.
    + intros H. apply IH in H. destruct H as [t2 H].
      apply process_line_nf in E. destruct E as [t1 E].
      exists (t1 ++ t2). rewrite H, E, app_assoc. reflexivity.
    + intros [= <- _]. exists []. rewrite app_nil_r. reflexivity.
Qed.

Lemma for_lines_app p pre : forall post st,
  for_lines p (pre ++ post) st =
    match for_lines p pre st with
    | (st1, None) => for_lines p post st1
    | (st1, Some e) => (st1, Some e)
    end.
Proof.
  induction pre as [|line rest IH]; intros post st; simpl; [reflexivity|].
  destruct (process_line p st line); [apply IH|reflexivity].
Qed.

(** ** Matching record lines *)

(** C1. A record line with the requested key and a different value, read
    after any lines the loop got through, is given the value chosen by the
    policy: the maximum of the requested and the existing value under
    [use_max], the minimum under [use_min], the requested value otherwise.
    When that value differs from the existing one the rewritten line is
    written and [changed] becomes true; when it does not, the original line
    is written and [changed] keeps its value. *)
Theorem matching_line_policy (p : params) (pre : list string)
    (st : loop_state) (line d t i : string) (v : Z) :
  (use_max p && use_min p)%bool = false ->
  for_lines p pre (initial p) = (st, None) ->
  classify line = RecordLine d t i v ->
  key_matches p d t i = true ->
  v <> value p ->
  exists st',
    process_line p st line = Normal st' /\
    new_value st' = policy_value p v /\
    new_comment st' = next_comment (new_comment st) line /\
    (policy_value p v <> v ->
       changed st' = true /\ nf st' = nf st ++ [new_limit p st']) /\
    (policy_value p v = v ->
       changed st' = changed st /\ nf st' = nf st ++ [line]).
Proof.
  intros Hflags Hpre Hclass Hkey Hne.
  rewrite (process_line_record p st line d t i v Hclass). cbv zeta.
  rewrite Hkey.
  assert (Hv : (value p =? v) = false) by (apply Z.eqb_neq; congruence).
  rewrite Hv. unfold policy_value.
  assert (Hnv : use_max p = false -> use_min p = false ->
                new_value st = value p).
  { intros Hmax Hmin.
    rewrite (for_lines_new_value p pre _ _ _ Hmax Hmin Hpre). reflexivity. }
  destruct (use_max p) eqn:Hmax, (use_min p) eqn:Hmin;
    try discriminate; cbn [new_value set_new_value set_found set_new_comment].
  - destruct (Z.max (value p) v =? v) eqn:E; cbn [negb];
      eexists; (split; [reflexivity|]); cbn;
      (split; [reflexivity|]); (split; [reflexivity|]).
    + apply Z.eqb_eq in E. split; [intros; congruence|]. auto.
    + apply Z.eqb_neq in E. split; [auto|]. intros; congruence.
  - destruct (Z.min (value p) v =? v) eqn:E; cbn [negb];
      eexists; (split; [reflexivity|]); cbn;
      (split; [reflexivity|]); (split; [reflexivity|]).
    + apply Z.eqb_eq in E. split; [intros; congruence|]. auto.
    + apply Z.eqb_neq in E. split; [auto|]. intros; congruence.
  - rewrite (Hnv eq_refl eq_refl), Hv. cbn [negb].
    eexists; (split; [reflexivity|]); cbn.
    split; [apply Hnv; reflexivity|]. split; [reflexivity|].
    split; [auto|]. intros; congruence.
Qed.

(** Keep-minimum on existing 500, requested 300: the line is rewritten
    with 300 and [changed] is set. *)
Lemma matching_line_policy_witness :
  exists st',
    process_line (Sample.joe_min 300) (initial (Sample.joe_min 300))
      ("joe soft nofile 500" +:+ Py.NL) = Normal st' /\
    new_value st' = 300 /\
    changed st' = true /\
    nf st' = ["joe" +:+ Py.TAB +:+ "soft" +:+ Py.TAB +:+ "nofile" +:+ Py.TAB
                +:+ "300" +:+ Py.NL].
Proof.
  destruct (matching_line_policy (Sample.joe_min 300) []
              (initial (Sample.joe_min 300))
              ("joe soft nofile 500" +:+ Py.NL) "joe" "soft" "nofile" 500)
    as (st' & Hstep & Hval & Hcom & Hch & _);
    [reflexivity | reflexivity | reflexivity | reflexivity | simpl; lia |].
  exists st'. split; [exact Hstep|]. split; [exact Hval|].
  destruct Hch as [Hc Hnf]; [vm_compute; discriminate|].
  split; [exact Hc|]. rewrite Hnf. unfold new_limit. rewrite Hval, Hcom.
  reflexivity.
Defined.

(** C2. A record line with the requested key whose value already equals
    the requested one is written back as it is, whatever the policy flags
    and whatever the variables hold: [changed] and [new_value] keep their
    values, so no policy computation has taken place. *)
Theorem exact_match_short_circuit (p : params) (st : loop_state)
    (line d t i : string) :
  classify line = RecordLine d t i (value p) ->
  key_matches p d t i = true ->
  exists st',
    process_line p st line = Normal st' /\
    nf st' = nf st ++ [line] /\
    changed st' = changed st /\
    new_value st' = new_value st /\
    found st' = true /\
    message st' = line.
Proof.
  intros Hclass Hkey.
  rewrite (process_line_record p st line d t i _ Hclass). cbv zeta.
  rewrite Hkey, Z.eqb_refl. eexists. split; [reflexivity|].
  cbn. repeat split; reflexivity.
Qed.

Lemma exact_match_short_circuit_witness :
  exists st',
    process_line (Sample.joe_min 500) (initial (Sample.joe_min 500))
      ("joe soft nofile 500" +:+ Py.NL) = Normal st' /\
    nf st' = [] ++ ["joe soft nofile 500" +:+ Py.NL] /\
    changed st' = false /\
    new_value st' = 500 /\
    found st' = true /\
    message st' = "joe soft nofile 500" +:+ Py.NL.
Proof.
  apply (exact_match_short_circuit (Sample.joe_min 500)
           (initial (Sample.joe_min 500))
           ("joe soft nofile 500" +:+ Py.NL) "joe" "soft" "nofile");
    reflexivity.
Defined.

(** The keep-maximum cases: existing 300 and requested 500 give 500 and a
    change; existing 500 and requested 300 leave the file as it is. *)
Example keep_maximum_runs :
  run (Params "joe" "soft" "nofile" 500 true false false
         Sample.limits_conf "") ("joe soft nofile 300" +:+ Py.NL) =
    Some (Sample.joe_line "500" "", true, Sample.joe_line "500" "") /\
  run (Params "joe" "soft" "nofile" 300 true false false
         Sample.limits_conf "") ("joe soft nofile 500" +:+ Py.NL) =
    Some ("joe soft nofile 500" +:+ Py.NL, false,
          "joe soft nofile 500" +:+ Py.NL).
Proof. split; reflexivity. Qed.

(** ** Lines that are copied *)

Lemma passthrough_step (p : params) (st : loop_state) (line : string) :
  passthrough_line p line ->
  exists st',
    process_line p st line = Normal st' /\
    nf st' = nf st ++ [line] /\
    changed st' = changed st /\
    found st' = found st /\
    has_eof st' = has_eof st /\
    new_value st' = new_value st /\
    message st' = message st.
Proof.
  intros [H|H|H|H|d t i v H K].
  - rewrite (process_line_comment_or_blank p st line (or_introl H)).
    eexists. split; [reflexivity|]. cbn. repeat split; reflexivity.
  - rewrite (process_line_comment_or_blank p st line (or_intror H)).
    eexists. split; [reflexivity|]. cbn. repeat split; reflexivity.
  - rewrite (process_line_malformed p st line H).
    eexists. split; [reflexivity|]. cbn. repeat split; reflexivity.
  - rewrite (process_line_malformed p st line (classify_five_fields line H)).
    eexists. split; [reflexivity|]. cbn. repeat split; reflexivity.
  - rewrite (process_line_record p st line d t i v H). cbv zeta. rewrite K.
    eexists. split; [reflexivity|]. cbn. repeat split; reflexivity.
Qed.

(** C7. A comment line, a blank line, a line that does not split into four
    fields (one with five fields included, even when its first three fields
    are the requested key) or a record of another key is processed without
    error and written to the temporary file as it was read: no other
    variable of the reconciliation moves, and in the file the line stands
    right after what the lines before it produced and before what the
    lines after it produce. *)
Theorem passthrough_fidelity (p : params) (pre : list string)
    (st : loop_state) (line : string) :
  passthrough_line p line ->
  for_lines p pre (initial p) = (st, None) ->
  exists st',
    process_line p st line = Normal st' /\
    nf st' = nf st ++ [line] /\
    changed st' = changed st /\
    found st' = found st /\
    new_value st' = new_value st /\
    forall post st_end e,
      for_lines p (pre ++ line :: post) (initial p) = (st_end, e) ->
      exists tail, nf st_end = nf st ++ line :: tail.
Proof.
  intros Hpass Hpre.
  destruct (passthrough_step p st line Hpass)
    as (st' & Hstep & Hnf & Hch & Hfound & _ & Hval & _).
  exists st'. repeat (split; [assumption|]).
  intros post st_end e. rewrite for_lines_app, Hpre. simpl. rewrite Hstep.
  intros Hpost. apply for_lines_nf in Hpost. destruct Hpost as [tail Ht].
  exists tail. rewrite Ht, Hnf, <- app_assoc. reflexivity.
Qed.

(** A five-field line that starts with the requested key, after a comment
    line, for a request that would otherwise rewrite it. *)
Lemma passthrough_fidelity_witness :
  exists st',
    process_line (Sample.joe 200 "")
      (nf_write ("# limits" +:+ Py.NL) (initial (Sample.joe 200 "")))
      ("joe soft nofile 100 extra" +:+ Py.NL) = Normal st' /\
    nf st' = ["# limits" +:+ Py.NL] ++ ["joe soft nofile 100 extra" +:+ Py.NL] /\
    changed st' = false /\
    found st' = false /\
    new_value st' = 200 /\
    forall post st_end e,
      for_lines (Sample.joe 200 "")
        (["# limits" +:+ Py.NL] ++ ("joe soft nofile 100 extra" +:+ Py.NL) :: post)
        (initial (Sample.joe 200 "")) = (st_end, e) ->
      exists tail,
        nf st_end =
          ["# limits" +:+ Py.NL] ++ ("joe soft nofile 100 extra" +:+ Py.NL) :: tail.
Proof.
  apply (passthrough_fidelity (Sample.joe 200 "") ["# limits" +:+ Py.NL]
           (nf_write ("# limits" +:+ Py.NL) (initial (Sample.joe 200 "")))
           ("joe soft nofile 100 extra" +:+ Py.NL)).
  - apply pass_five_fields. reflexivity.
  - reflexivity.
Defined.

(** ** The end-of-file marker *)

Lemma endswith_nl_app a b :
  Py.endswith_nl b = true -> Py.endswith_nl (a +:+ b) = true.
Proof.
  intros Hb. induction a as [|c a IH]; [exact Hb|].
  change (String c a +:+ b) with (String c (a +:+ b)).
  cbn [Py.endswith_nl]. destruct (a +:+ b); [discriminate IH|exact IH].
Qed.

Lemma new_limit_endswith_nl p st : Py.endswith_nl (new_limit p st) = true.
Proof.
  unfold new_limit. repeat apply endswith_nl_app. reflexivity.
Qed.

Lemma append_empty_r s : s +:+ "" = s.
Proof.
  induction s as [|c s IH]; [reflexivity|].
  change (String c s +:+ "") with (String c (s +:+ "")). f_equal. exact IH.
Qed.

Lemma append_assoc_str a b c : (a +:+ b) +:+ c = a +:+ (b +:+ c).
Proof.
  induction a as [|x a IH]; [reflexivity|].
  change (String x ((a +:+ b) +:+ c) = String x (a +:+ (b +:+ c))).
  f_equal. exact IH.
Qed.

Lemma join_snoc l x : Py.join (l ++ [x]) = Py.join l +:+ x.
Proof.
  induction l as [|a l IH]; simpl.
  - apply append_empty_r.
  - rewrite IH, append_assoc_str. reflexivity.
Qed.

Lemma join_terminated l :
  Forall (fun c => Py.endswith_nl c = true) l ->
  Py.join l = "" \/ Py.endswith_nl (Py.join l) = true.
Proof.
  induction 1 as [|c l Hc _ IH]; [left; reflexivity|].
  right. simpl. destruct IH as [-> | IH].
  - rewrite append_empty_r. exact Hc.
  - apply endswith_nl_app, IH.
Qed.

Lemma readlines_cons_nonempty c r : Py.readlines (String c r) <> [].
Proof.
  simpl. destruct (Ascii.eqb c "010"); [discriminate|].
  destruct (Py.readlines r); discriminate.
Qed.

(** Reading a file that ends with a newline, followed by more text, gives
    the lines of the first part and then those of the second. *)
Lemma readlines_app a b :
  a = "" \/ Py.endswith_nl a = true ->
  Py.readlines (a +:+ b) = Py.readlines a ++ Py.readlines b.
Proof.
  induction a as [|c r IH]; intros H; [reflexivity|].
  destruct H as [H|H]; [discriminate|].
  change (String c r +:+ b) with (String c (r +:+ b)).
  cbn [Py.endswith_nl] in H. cbn [Py.readlines].
  destruct r as [|c' r'].
  - rewrite H. reflexivity.
  - rewrite (IH (or_intror H)).
    destruct (Ascii.eqb c "010"); [reflexivity|].
    pose proof (readlines_cons_nonempty c' r') as Hne.
    destruct (Py.readlines (String c' r')); [congruence|reflexivity].
Qed.

(** Every physical line but the last ends with a newline. *)
Lemma readlines_front_endswith_nl s :
  Forall (fun l => Py.endswith_nl l = true) (removelast (Py.readlines s)).
Proof.
  induction s as [|c r IH]; [constructor|].
  cbn [Py.readlines]. destruct (Ascii.eqb c "010") eqn:Hc.
  - cbn [removelast]. destruct (Py.readlines r) as [|l ls]; [constructor|].
    constructor; [|exact IH]. cbn [Py.endswith_nl]. exact Hc.
  - destruct (Py.readlines r) as [|l ls]; [constructor|].
    cbn [removelast] in *. destruct ls as [|l2 ls]; [constructor|].
    inversion IH as [|? ? Hl Hrest]; subst. constructor; [|exact Hrest].
    cbn [Py.endswith_nl]. destruct l; [discriminate Hl|exact Hl].
Qed.

Lemma sentinel_last_lines_terminated s front m :
  Py.readlines s = front ++ [m] ->
  is_sentinel m = true ->
  Forall (fun l => is_sentinel l = true \/ Py.endswith_nl l = true)
         (Py.readlines s).
Proof.
  intros Hs Hm. pose proof (readlines_front_endswith_nl s) as H.
  rewrite Hs in *. rewrite removelast_last in H.
  apply Forall_app. split.
  - eapply List.Forall_impl; [|exact H]. intros l Hl. right. exact Hl.
  - constructor; [left; exact Hm|constructor].
Qed.

(** The loop body never reads [has_eof]. *)
Lemma process_line_has_eof p st line b :
  is_sentinel line = false ->
  process_line p (set_has_eof b st) line =
    match process_line p st line with
    | Normal s => Normal (set_has_eof b s)
    | Raised e => Raised e
    end.
Proof.
  unfold is_sentinel, process_line. intros ->.
  destruct (Py.startswith line "#"); [reflexivity|].
  destruct (Py.is_empty (normalized line)); [reflexivity|].
  destruct (line_fields_of line) as [|a [|b' [|c [|f3 [|e l]]]]];
    try reflexivity.
  destruct (Py.int f3) as [v|]; [|reflexivity].
  destruct (key_matches p a b' c); [|reflexivity].
  cbn [value new_value set_found set_new_comment set_has_eof set_new_value].
  destruct (value p =? v); [reflexivity|].
  destruct (use_max p), (use_min p);
    cbn [new_value set_new_value set_found set_new_comment set_has_eof];
    match goal with |- context [negb ?c] => destruct c end; reflexivity.
Qed.

Lemma process_line_is_sentinel p st line :
  is_sentinel line = true ->
  process_line p st line = Normal (set_has_eof true st).
Proof.
  unfold is_sentinel, process_line. intros ->. reflexivity.
Qed.

(** Dropping the marker lines from the input changes nothing in the loop
    but [has_eof]. *)
Lemma for_lines_without_sentinels p lines : forall st st' b,
  for_lines p lines st = (st', None) ->
  for_lines p (List.filter not_sentinel lines) (set_has_eof b st)
    = (set_has_eof b st', None) /\
  has_eof st' = (has_eof st || List.existsb is_sentinel lines)%bool.
Proof.
  induction lines as [|line rest IH]; intros st st' b; simpl.
  - intros [= <-]. rewrite orb_false_r. split; reflexivity.
  - unfold not_sentinel at 1. destruct (is_sentinel line) eqn:S; simpl.
    + rewrite (process_line_is_sentinel p st line S). intros H.
      destruct (IH _ _ b H) as [H1 H2]. split; [exact H1|].
      rewrite H2. simpl. rewrite orb_true_r. reflexivity.
    + rewrite (process_line_has_eof p st line b S).
      destruct (process_line p st line) as [s|e] eqn:E; [|discriminate].
      intros H. destruct (IH _ _ b H) as [H1 H2]. split; [exact H1|].
      rewrite H2. f_equal.
      unfold process_line in E. unfold is_sentinel in S. rewrite S in E.
      revert E.
      destruct (Py.startswith line "#"); [intros [= <-]; reflexivity|].
      destruct (Py.is_empty (normalized line)); [intros [= <-]; reflexivity|].
      destruct (line_fields_of line) as [|a [|b' [|c [|f3 [|e l]]]]];
        try (intros [= <-]; reflexivity).
      destruct (Py.int f3) as [v|]; [|discriminate].
      destruct (key_matches p a b' c); [|intros [= <-]; reflexivity].
      destruct (value p =? v); [intros [= <-]; reflexivity|].
      match goal with |- context [negb ?c] => destruct c end;
        intros [= <-]; destruct (use_max p), (use_min p); reflexivity.
Qed.

(** Every chunk the loop writes is a copied line that is not a marker
    line, or a record built by [new_limit]. *)
Lemma process_line_chunks (P : string -> Prop) p st line st' :
  (is_sentinel line = false -> P line) ->
  (forall s, P (new_limit p s)) ->
  process_line p st line = Normal st' ->
  Forall P (nf st) -> Forall P (nf st').
Proof.
  intros Hline Hn E HF. destruct (is_sentinel line) eqn:S.
  - rewrite (process_line_is_sentinel p st line S) in E.
    injection E as <-. exact HF.
  - specialize (Hline eq_refl).
    unfold process_line in E. unfold is_sentinel in S. rewrite S in E.
    revert E.
    assert (Hw : forall c s, P c -> Forall P (nf s) ->
                   Forall P (nf (nf_write c s))).
    { intros c s Hc Hs. simpl. apply Forall_app. split; [exact Hs|].
      constructor; [exact Hc|constructor]. }
    destruct (Py.startswith line "#"); [intros [= <-]; auto|].
    destruct (Py.is_empty (normalized line)); [intros [= <-]; auto|].
    destruct (line_fields_of line) as [|a [|b' [|c [|f3 [|e l]]]]];
      try (intros [= <-]; auto).
    destruct (Py.int f3) as [v|]; [|discriminate].
    destruct (key_matches p a b' c); [|intros [= <-]; auto].
    destruct (value p =? v); [intros [= <-]; auto|].
    match goal with |- context [negb ?c] => destruct c end;
      intros [= <-]; apply Hw; auto;
      destruct (use_max p), (use_min p); exact HF.
Qed.

Lemma for_lines_chunks (P : string -> Prop) p lines : forall st st' e,
  (forall line, In line lines -> is_sentinel line = false -> P line) ->
  (forall s, P (new_limit p s)) ->
  for_lines p lines st = (st', e) ->
  Forall P (nf st) -> Forall P (nf st').
Proof.
  induction lines as [|line rest IH]; intros st st' e Hl Hn; simpl.
  - intros [= <- _]. auto.
  - destruct (process_line p st line) as [s|x] eqn:E.
    + intros H HF. eapply IH; [| exact Hn | exact H |].
      * intros l Hin. apply Hl. right. exact Hin.
      * apply (process_line_chunks P p st line s); auto.
        apply Hl. left. reflexivity.
    + intros [= <- _]. auto.
Qed.

Lemma append_missing_chunks (P : string -> Prop) p st :
  (forall s, P (new_limit p s)) ->
  Forall P (nf st) -> Forall P (nf (append_missing p st)).
Proof.
  intros Hn HF. unfold append_missing. destruct (found st); [exact HF|].
  simpl. apply Forall_app. split; [exact HF|].
  constructor; [apply Hn|constructor].
Qed.

Lemma new_limit_body_chunk p s : body_chunk (new_limit p s).
Proof. right. apply new_limit_endswith_nl. Qed.

Lemma append_missing_set_has_eof p s b :
  append_missing p (set_has_eof b s) = set_has_eof b (append_missing p s).
Proof. unfold append_missing. cbn [found set_has_eof]. destruct (found s); reflexivity. Qed.

Lemma body_chunk_not_mark l :
  Forall body_chunk l -> count_occ string_dec l EOF_MARK = 0%nat.
Proof.
  intros HF. apply count_occ_not_In. intros HIn.
  rewrite List.Forall_forall in HF. destruct (HF _ HIn) as [H|H]; discriminate H.
Qed.

(** The marker lines and the chunks written. A line that starts with the
    marker makes the loop write nothing and only remember having seen one.
    For a run that gets to the end, the chunks written are those the same
    run writes for the input without its marker lines, followed, when the
    input has at least one marker line, by the single chunk
    [# End of file]; no other chunk is equal to that text. This counts
    chunks handed to [nf.write], not lines of the resulting file. *)
Lemma sentinel_chunks (p : params) (content : string)
    (st : loop_state) :
  reconcile p content = (st, None) ->
  (forall s line,
     is_sentinel line = true ->
     process_line p s line = Normal (set_has_eof true s)) /\
  (exists st0,
     reconcile_lines p (List.filter not_sentinel (Py.readlines content))
       = (st0, None) /\
     nf st = nf st0 ++ (if List.existsb is_sentinel (Py.readlines content)
                        then [EOF_MARK] else []) /\
     changed st = changed st0 /\
     count_occ string_dec (nf st0) EOF_MARK = 0%nat) /\
  count_occ string_dec (nf st) EOF_MARK =
    (if List.existsb is_sentinel (Py.readlines content) then 1 else 0)%nat.
Proof.
  unfold reconcile, reconcile_lines.
  destruct (for_lines p (Py.readlines content) (initial p))
    as [s1 [e|]] eqn:E; [discriminate|].
  intros [= <-].
  destruct (for_lines_without_sentinels p _ _ _ false E) as [H1 H2].
  change (set_has_eof false (initial p)) with (initial p) in H1.
  cbn [has_eof initial orb] in H2.
  assert (Hbody : Forall body_chunk (nf (append_missing p s1))).
  { apply append_missing_chunks; [apply new_limit_body_chunk|].
    eapply (for_lines_chunks body_chunk); [| | exact E | constructor].
    - intros l _ S. left. exact S.
    - apply new_limit_body_chunk. }
  assert (Hnf : nf (write_eof (append_missing p s1)) =
                nf (append_missing p s1) ++
                  (if List.existsb is_sentinel (Py.readlines content)
                   then [EOF_MARK] else [])).
  { unfold write_eof.
    replace (has_eof (append_missing p s1)) with (has_eof s1)
      by (unfold append_missing; destruct (found s1); reflexivity).
    rewrite H2. destruct (List.existsb is_sentinel (Py.readlines content));
      [reflexivity|]. rewrite app_nil_r. reflexivity. }
  split; [intros s line; apply process_line_is_sentinel|]. split.
  - exists (set_has_eof false (append_missing p s1)).
    rewrite H1, append_missing_set_has_eof. split; [reflexivity|].
    split; [exact Hnf|]. split.
    + unfold write_eof. destruct (has_eof (append_missing p s1)); reflexivity.
    + apply body_chunk_not_mark. exact Hbody.
  - rewrite Hnf, count_occ_app, (body_chunk_not_mark _ Hbody).
    destruct (List.existsb is_sentinel (Py.readlines content)); reflexivity.
Qed.

(** The marker is the last chunk written, also on the sample with two
    marker lines, where the record in between is rewritten. *)
Example two_marks_output :
  run (Sample.joe 200 "") Sample.two_marks =
    Some ("joe" +:+ Py.TAB +:+ "soft" +:+ Py.TAB +:+ "nofile" +:+ Py.TAB
            +:+ "200" +:+ Py.NL +:+ "# End of file",
          true,
          "joe" +:+ Py.TAB +:+ "soft" +:+ Py.TAB +:+ "nofile" +:+ Py.TAB
            +:+ "200" +:+ Py.NL).
Proof. reflexivity. Qed.

(** C6. The marker is not always the final line of the output: with the
    marker on the first line and a last line that has no newline, line 223
    writes the marker straight after that line's text, so that the output
    is one line, which does not even start with the marker. *)
Theorem sentinel_glued_to_open_line :
  List.existsb is_sentinel (Py.readlines Sample.mark_then_open_line) = true /\
  run (Sample.joe 200 "") Sample.mark_then_open_line =
    Some ("joe soft nofile 200# End of file", false, "joe soft nofile 200") /\
  last (Py.readlines "joe soft nofile 200# End of file")
    = Some "joe soft nofile 200# End of file" /\
  is_sentinel "joe soft nofile 200# End of file" = false.
Proof. repeat split; reflexivity. Qed.

(** What does hold of the marker, in terms of the chunks written. When
    the input has a marker line, wherever it stands, the last chunk written
    is [# End of file], after the appended record when the key was not
    found; that chunk is the final line of the output when every other
    line of the input ends with a newline, which is the case when the
    marker line is the last line of the input. When the input has no
    marker line, no chunk equal to the marker is written. *)
Lemma sentinel_written_last (p : params) (content : string)
    (st : loop_state) :
  reconcile p content = (st, None) ->
  exists st_loop,
    for_lines p (Py.readlines content) (initial p) = (st_loop, None) /\
    (List.existsb is_sentinel (Py.readlines content) = true ->
       nf st = nf (append_missing p st_loop) ++ [EOF_MARK] /\
       (found st_loop = false ->
          nf st = nf st_loop
                    ++ [new_limit p (set_changed true st_loop); EOF_MARK]) /\
       (Forall (fun l => is_sentinel l = true \/ Py.endswith_nl l = true)
               (Py.readlines content) ->
          last (Py.readlines (Py.join (nf st))) = Some EOF_MARK) /\
       (forall front m,
          Py.readlines content = front ++ [m] -> is_sentinel m = true ->
          last (Py.readlines (Py.join (nf st))) = Some EOF_MARK)) /\
    (List.existsb is_sentinel (Py.readlines content) = false ->
       nf st = nf (append_missing p st_loop) /\ ~ In EOF_MARK (nf st)).
Proof.
  unfold reconcile, reconcile_lines.
  destruct (for_lines p (Py.readlines content) (initial p))
    as [s1 [e|]] eqn:E; [discriminate|].
  intros [= <-]. exists s1. split; [reflexivity|].
  destruct (for_lines_without_sentinels p _ _ _ false E) as [_ H2].
  cbn [has_eof initial orb] in H2.
  assert (Heof : has_eof (append_missing p s1) = has_eof s1)
    by (unfold append_missing; destruct (found s1); reflexivity).
  split; intros Hs; unfold write_eof; rewrite Heof, H2, Hs.
  - assert (Hlast :
      Forall (fun l => is_sentinel l = true \/ Py.endswith_nl l = true)
             (Py.readlines content) ->
      last (Py.readlines
              (Py.join (nf (nf_write EOF_MARK (append_missing p s1)))))
        = Some EOF_MARK).
    { intros Hnl. cbn [nf nf_write]. rewrite join_snoc.
      rewrite readlines_app.
      * change (Py.readlines EOF_MARK) with [EOF_MARK]. apply last_snoc.
      * apply join_terminated.
        apply append_missing_chunks; [apply new_limit_endswith_nl|].
        eapply (for_lines_chunks (fun c => Py.endswith_nl c = true));
          [| apply new_limit_endswith_nl | exact E | constructor].
        intros l Hin S. rewrite List.Forall_forall in Hnl.
        destruct (Hnl l Hin) as [H|H]; [congruence|exact H]. }
    split; [reflexivity|]. split; [|split; [exact Hlast|]].
    + intros Hf. unfold append_missing. rewrite Hf. cbn.
      rewrite <- app_assoc. reflexivity.
    + intros front m Hfront Hm. apply Hlast.
      apply (sentinel_last_lines_terminated content front m Hfront Hm).
  - split; [reflexivity|]. intros Hin.
    assert (Hbody : Forall body_chunk (nf (append_missing p s1))).
    { apply append_missing_chunks; [apply new_limit_body_chunk|].
      eapply (for_lines_chunks body_chunk); [| | exact E | constructor].
      - intros l _ S. left. exact S.
      - apply new_limit_body_chunk. }
    rewrite List.Forall_forall in Hbody.
    destruct (Hbody _ Hin) as [H|H]; discriminate H.
Qed.

(** ** Preconditions and parse errors in [main] *)

(** C8. With [use_min] and [use_max] both set, [main] ends in [fail_json]
    and the file system is the one it started with: no line was read, no
    backup and no temporary file were made. When the target exists and is
    writable the message is the one about the two flags. *)
Theorem conflicting_flags_rejected (tmp_name backup_name : string)
    (p : params) (fs : gmap string file) :
  use_min p = true ->
  use_max p = true ->
  exists msg,
    main tmp_name backup_name p fs = (fs, fail_json msg) /\
    forall f, fs !! dest p = Some f -> writable f = true ->
              msg = "Cannot use use_min and use_max at the same time.".
Proof.
  intros Hmin Hmax. unfold main. rewrite Hmin, Hmax.
  destruct (fs !! dest p) as [f|] eqn:E.
  - destruct (writable f) eqn:W; cbn [negb andb].
    + eexists. split; [reflexivity|]. reflexivity.
    + eexists. split; [reflexivity|]. intros f' [= <-]. congruence.
  - eexists. split; [reflexivity|]. intros f' [=].
Qed.

Lemma conflicting_flags_rejected_witness :
  exists msg,
    main Sample.tmp Sample.bak (Sample.joe_both 300)
      (Sample.fs_with Sample.two_records)
      = (Sample.fs_with Sample.two_records, fail_json msg) /\
    forall f,
      Sample.fs_with Sample.two_records !! dest (Sample.joe_both 300) = Some f ->
      writable f = true ->
      msg = "Cannot use use_min and use_max at the same time.".
Proof.
  apply (conflicting_flags_rejected Sample.tmp Sample.bak
           (Sample.joe_both 300) (Sample.fs_with Sample.two_records));
    reflexivity.
Defined.

Lemma for_lines_bad_value p lines line d t i f3 : forall st,
  In line lines ->
  classify line = BadValue d t i f3 ->
  exists st', for_lines p lines st = (st', Some ValueError).
Proof.
  induction lines as [|l rest IH]; intros st Hin Hc; [destruct Hin|].
  simpl. destruct (process_line p st l) as [s|[]] eqn:E; [|eauto].
  destruct Hin as [->|Hin].
  - rewrite (process_line_bad_value p st line d t i f3 Hc) in E. discriminate.
  - apply IH; assumption.
Qed.

(** C9. When some line of the target splits into four fields of which the
    fourth is not an integer, [main] ends with the [ValueError] raised by
    [int] instead of reaching [atomic_move] and [exit_json], and the target
    still holds the file it held, content and permission bits. *)
Theorem bad_value_aborts_before_commit (tmp_name backup_name : string)
    (p : params) (fs : gmap string file) (f : file)
    (line d t i f3 : string) :
  fs !! dest p = Some f ->
  writable f = true ->
  (use_max p && use_min p)%bool = false ->
  tmp_name <> dest p ->
  backup_name <> dest p ->
  In line (Py.readlines (data f)) ->
  line_fields_of line = [d; t; i; f3] ->
  Py.int f3 = None ->
  exists fs',
    main tmp_name backup_name p fs = (fs', traceback ValueError) /\
    fs' !! dest p = Some f.
Proof.
  intros Hf Hw Hflags Htmp Hbak Hin Hfields Hint.
  assert (Hc : classify line = BadValue d t i f3).
  { rewrite (classify_four_fields line d t i f3 Hfields), Hint. reflexivity. }
  destruct (for_lines_bad_value p _ line d t i f3 (initial p) Hin Hc)
    as [st' Hrun].
  unfold main. rewrite Hf, Hw, Hflags. cbn [negb].
  unfold reconcile, reconcile_lines. rewrite Hrun.
  eexists. split; [reflexivity|].
  rewrite lookup_insert_ne by exact Htmp.
  destruct (backup p); [rewrite lookup_insert_ne by exact Hbak|]; exact Hf.
Qed.

Lemma bad_value_aborts_before_commit_witness :
  exists fs',
    main Sample.tmp Sample.bak (Sample.joe 200 "")
      (Sample.fs_with Sample.bad_value) = (fs', traceback ValueError) /\
    fs' !! dest (Sample.joe 200 "") = Some (File true Sample.bad_value).
Proof.
  apply (bad_value_aborts_before_commit Sample.tmp Sample.bak
           (Sample.joe 200 "") (Sample.fs_with Sample.bad_value)
           (File true Sample.bad_value)
           ("joe soft nofile lots" +:+ Py.NL) "joe" "soft" "nofile" "lots").
  - reflexivity.
  - reflexivity.
  - reflexivity.
  - discriminate.
  - discriminate.
  - simpl. right. left. reflexivity.
  - reflexivity.
  - reflexivity.
Defined.

(** A whole run of [main] that gets to the commit: the target receives the
    new content, the temporary file is gone and the result reports the
    change. *)
Example main_commits :
  main Sample.tmp Sample.bak (Sample.joe 200 "")
    (Sample.fs_with Sample.two_marks) =
    (Sample.fs_with (Sample.joe_line "200" "" +:+ "# End of file"),
     exit_json true (Sample.joe_line "200" "") None).
Proof. vm_compute. reflexivity. Qed.

(** ** Runs that expose the handling of the comment variable *)

(** [new_comment] is assigned inside the loop (lines 173-177) and never
    reset: it starts as the requested comment, takes the trailing comment
    of the first line that has one when the request has none, and gets one
    more tab and hash in front of it for every line that reaches line 176. *)
Lemma new_comment_after_line p st line st' :
  process_line p st line = Normal st' ->
  new_comment st' = new_comment st \/
  new_comment st' = next_comment (new_comment st) line.
Proof.
  by_class p st line; cbv zeta; try discriminate;
    try (intros [= <-]; cbn; auto).
  destruct (key_matches p d t i); [|intros [= <-]; cbn; auto].
  destruct (value p =? actual_value); [intros [= <-]; cbn; auto|].
  match goal with |- context [negb ?b] => destruct b end;
    intros [= <-]; destruct (use_max p), (use_min p); cbn; auto.
Qed.

(** On an ordinary file a second run of the same request changes
    nothing. *)
Example second_application_ordinary :
  run (Sample.joe 200 "") Sample.two_marks =
    Some (Sample.joe_line "200" "" +:+ "# End of file", true,
          Sample.joe_line "200" "") /\
  run (Sample.joe 200 "") (Sample.joe_line "200" "" +:+ "# End of file") =
    Some (Sample.joe_line "200" "" +:+ "# End of file", false,
          Sample.joe_line "200" "").
Proof. split; reflexivity. Qed.

(** C3. Idempotence fails on a stock file (comments and the marker) when
    the request carries a comment: the first run appends the record with
    the comment glued to the value, because no line reached the place
    where the tab and the hash are put in front of it; the second run takes
    that line for a five-field line, does not find the key, appends the
    record again and reports a change. *)
Theorem second_application_changes_again :
  run (Sample.joe 64000 "max files") Sample.stock =
    Some (Sample.stock_once, true, Sample.joe_line "64000" "max files") /\
  run (Sample.joe 64000 "max files") Sample.stock_once =
    Some (Sample.stock_twice, true,
          Sample.joe_line "64000" (Py.TAB +:+ "#max files")) /\
  Sample.stock_twice <> Sample.stock_once.
Proof. split; [reflexivity | split; [reflexivity | discriminate]]. Qed.

(** The same happens with no comment at all when the last line of the
    file has no newline: the appended record is glued to that line. *)
Example second_application_open_last_line :
  run (Sample.joe 200 "") Sample.open_last_line =
    Some ("root soft core 0" +:+ Sample.joe_line "200" "", true,
          Sample.joe_line "200" "") /\
  run (Sample.joe 200 "") ("root soft core 0" +:+ Sample.joe_line "200" "") =
    Some ("root soft core 0" +:+ Sample.joe_line "200" ""
            +:+ Sample.joe_line "200" "", true,
          Sample.joe_line "200" "").
Proof. split; reflexivity. Qed.

(** C4. The rewritten line does not always carry its own comment: the
    record of joe, whose trailing comment is [was 100], is rewritten with
    the comment of the record before it, behind two tab-and-hash prefixes
    and with that line's newline in it. *)
Theorem rewritten_line_takes_earlier_comment :
  run (Sample.joe 200 "") Sample.two_records =
    Some ("root soft core 0 #no core dumps" +:+ Py.NL
            +:+ Sample.joe_line "200"
                  (Py.TAB +:+ "#" +:+ Py.TAB +:+ "#no core dumps" +:+ Py.NL),
          true,
          Sample.joe_line "200"
            (Py.TAB +:+ "#" +:+ Py.TAB +:+ "#no core dumps" +:+ Py.NL)) /\
  old_comment_of ("joe soft nofile 100 #was 100" +:+ Py.NL)
    = "was 100" +:+ Py.NL.
Proof. split; reflexivity. Qed.

(** What does hold of the record appended for a key that was not found:
    it comes after everything the loop wrote and before the marker, it
    carries the requested value, and [changed] is set. *)
Lemma process_line_found p st line st' :
  process_line p st line = Normal st' ->
  (found st = true -> found st' = true) /\
  (found st' = false -> new_value st' = new_value st).
Proof.
  by_class p st line; cbv zeta; try discriminate;
    try (intros [= <-]; cbn; auto).
  destruct (key_matches p d t i); [|intros [= <-]; cbn; auto].
  destruct (value p =? actual_value);
    [intros [= <-]; cbn; split; [reflexivity|discriminate]|].
  match goal with |- context [negb ?b] => destruct b end;
    intros [= <-]; destruct (use_max p), (use_min p); cbn;
    (split; [reflexivity|discriminate]).
Qed.

Lemma for_lines_found p lines : forall st st' e,
  for_lines p lines st = (st', e) -> found st = true -> found st' = true.
Proof.
  induction lines as [|line rest IH]; intros st st' e; simpl.
  - intros [= <- _]. auto.
  - destruct (process_line p st line) as [s|x] eqn:E;
      [|intros [= <- _]; auto].
    intros H Hf. apply (IH _ _ _ H).
    apply (process_line_found p st line s E), Hf.
Qed.

Lemma found_false_new_value p lines : forall st st' e,
  for_lines p lines st = (st', e) ->
  found st' = false -> new_value st' = new_value st.
Proof.
  induction lines as [|line rest IH]; intros st st' e; simpl.
  - intros [= <- _]. reflexivity.
  - destruct (process_line p st line) as [s|x] eqn:E;
      [|intros [= <- _]; reflexivity].
    intros H Hf. rewrite (IH _ _ _ H Hf).
    apply (process_line_found p st line s E).
    destruct (found s) eqn:Hs; [|reflexivity].
    rewrite (for_lines_found p rest _ _ _ H Hs) in Hf. discriminate.
Qed.

Lemma missing_key_appended p content st_loop :
  for_lines p (Py.readlines content) (initial p) = (st_loop, None) ->
  found st_loop = false ->
  exists st,
    reconcile p content = (st, None) /\
    changed st = true /\
    nf st = nf st_loop
              ++ [domain p +:+ Py.TAB +:+ limit_type p +:+ Py.TAB
                    +:+ limit_item p +:+ Py.TAB +:+ Py.str (value p)
                    +:+ new_comment st_loop +:+ Py.NL]
              ++ (if has_eof st_loop then [EOF_MARK] else []).
Proof.
  intros Hrun Hf. unfold reconcile, reconcile_lines. rewrite Hrun.
  eexists. split; [reflexivity|].
  pose proof (found_false_new_value p _ _ _ _ Hrun Hf) as Hv.
  cbn [new_value initial] in Hv.
  unfold append_missing, write_eof. rewrite Hf. cbn.
  destruct (has_eof st_loop); cbn; (split; [reflexivity|]);
    unfold new_limit; cbn; rewrite Hv, <- ?app_assoc, ?app_nil_r; reflexivity.
Qed.

(** C5. The record appended for a key that is not in the file does not
    always carry the requested comment or none: with no comment requested
    it carries the trailing comment of the record that is in the file, and
    that line's newline. *)
Theorem appended_line_takes_earlier_comment :
  comment (Sample.joe 200 "") = "" /\
  run (Sample.joe 200 "") Sample.one_record =
    Some (Sample.one_record
            +:+ Sample.joe_line "200" (Py.TAB +:+ "#no core dumps" +:+ Py.NL),
          true,
          Sample.joe_line "200" (Py.TAB +:+ "#no core dumps" +:+ Py.NL)).
Proof. split; reflexivity. Qed.

(** ** The run as a function of the classes of the lines *)

Lemma is_sentinel_classify line :
  is_sentinel line = match classify line with Sentinel => true | _ => false end.
Proof.
  unfold is_sentinel, classify.
  destruct (Py.startswith line EOF_MARK); [reflexivity|].
  destruct (Py.startswith line "#"); [reflexivity|].
  destruct (Py.is_empty (normalized line)); [reflexivity|].
  destruct (line_fields_of line) as [|a [|b [|c [|f3 [|e l]]]]];
    try reflexivity.
  destruct (Py.int f3); reflexivity.
Qed.

(** The value the policy puts in place of another one is the requested
    value: under [use_max] or [use_min] the line either keeps its value or
    takes the requested one. *)
Lemma policy_value_cases p v :
  policy_value p v = v \/ policy_value p v = value p.
Proof.
  unfold policy_value. destruct (use_max p); [lia|].
  destruct (use_min p); [lia|]. right. reflexivity.
Qed.

(** The loop body raises on the lines with a bad value and on no other. *)
Lemma process_line_raises p st line :
  (exists e, process_line p st line = Raised e) <-> line_bad_value line = true.
Proof.
  unfold line_bad_value. by_class p st line; cbv zeta;
    try (split; [intros [e H]; discriminate H | discriminate]).
  - split; [reflexivity | eauto].
  - split; [|discriminate]. intros [e H]. revert H.
    destruct (key_matches p d t i); [|discriminate].
    destruct (value p =? actual_value); [discriminate|].
    match goal with |- context [negb ?b] => destruct b end; discriminate.
Qed.

(** One step of the loop on a line without a bad value, for a state in
    which [new_value] is still the requested value when no flag is set. *)
Lemma process_line_effect p st line :
  (use_max p && use_min p)%bool = false ->
  (use_max p = false -> use_min p = false -> new_value st = value p) ->
  line_bad_value line = false ->
  exists st',
    process_line p st line = Normal st' /\
    found st' = (found st || line_matches p line)%bool /\
    changed st' = (changed st || line_rewritten p line)%bool /\
    has_eof st' = (has_eof st || is_sentinel line)%bool /\
    new_comment st' = (if Py.startswith line "#" then new_comment st
                       else if Py.is_empty (normalized line)
                            then new_comment st
                            else next_comment (new_comment st) line) /\
    nf st' = nf st ++ (if is_sentinel line then []
                       else if line_rewritten p line then [new_limit p st']
                            else [line]) /\
    (line_rewritten p line = true -> new_value st' = value p) /\
    (use_max p = false -> use_min p = false -> new_value st' = value p).
Proof.
  intros Hflags Hinv. rewrite is_sentinel_classify.
  unfold line_bad_value, line_matches, line_rewritten.
  assert (Hcom : forall c, classify line <> Sentinel ->
            classify line <> CommentLine -> classify line <> Blank ->
            c = (if Py.startswith line "#" then new_comment st
                 else if Py.is_empty (normalized line) then new_comment st
                      else c)).
  { intros c. unfold classify.
    destruct (Py.startswith line EOF_MARK); [congruence|].
    destruct (Py.startswith line "#"); [congruence|].
    destruct (Py.is_empty (normalized line)); [congruence|reflexivity]. }
  assert (Hcom0 : classify line = Sentinel \/ classify line = CommentLine \/
                  classify line = Blank ->
            new_comment st =
              (if Py.startswith line "#" then new_comment st
               else if Py.is_empty (normalized line) then new_comment st
                    else next_comment (new_comment st) line)).
  { unfold classify.
    destruct (Py.startswith line EOF_MARK) eqn:E.
    { rewrite (startswith_mark_hash line E). reflexivity. }
    destruct (Py.startswith line "#"); [reflexivity|].
    destruct (Py.is_empty (normalized line)); [reflexivity|].
    destruct (line_fields_of line) as [|a [|b [|c [|f3 [|e l]]]]];
      try (intros [H|[H|H]]; discriminate H).
    destruct (Py.int f3); intros [H|[H|H]]; discriminate H. }
  by_class p st line; cbv zeta; intros Hbad; try discriminate Hbad.
  - eexists. split; [reflexivity|]. cbn.
    rewrite ?orb_false_r, ?orb_true_r, app_nil_r.
    repeat split; auto; try discriminate;
      try (apply Hcom0; auto).
  - eexists. split; [reflexivity|]. cbn. rewrite ?orb_false_r.
    repeat split; auto; try discriminate;
      try (apply Hcom0; auto).
  - eexists. split; [reflexivity|]. cbn. rewrite ?orb_false_r.
    repeat split; auto; try discriminate;
      try (apply Hcom0; auto).
  - eexists. split; [reflexivity|]. cbn. rewrite ?orb_false_r.
    repeat split; auto; try discriminate;
      try (apply Hcom; discriminate).
  - assert (Hc : next_comment (new_comment st) line =
                 (if Py.startswith line "#" then new_comment st
                  else if Py.is_empty (normalized line) then new_comment st
                       else next_comment (new_comment st) line))
      by (apply Hcom; discriminate).
    destruct (key_matches p d t i) eqn:K; cbn [andb].
    2:{ eexists. split; [reflexivity|]. cbn. rewrite ?orb_false_r.
        repeat split; auto; discriminate. }
    destruct (value p =? actual_value) eqn:V.
    { apply Z.eqb_eq in V.
      assert (Hp : (policy_value p actual_value =? actual_value) = true).
      { apply Z.eqb_eq. unfold policy_value. rewrite <- V.
        destruct (use_max p); [lia|]. destruct (use_min p); [lia|].
        reflexivity. }
      rewrite Hp. eexists. split; [reflexivity|]. cbn.
      rewrite ?orb_false_r, ?orb_true_r.
      repeat split; auto; discriminate. }
    unfold policy_value.
    destruct (use_max p) eqn:Hmax, (use_min p) eqn:Hmin;
      try discriminate Hflags;
      cbn [new_value set_new_value set_found set_new_comment].
    + destruct (Z.max (value p) actual_value =? actual_value) eqn:P;
        cbn [negb]; eexists; (split; [reflexivity|]); cbn;
        rewrite ?orb_false_r, ?orb_true_r;
        repeat split; auto; try discriminate.
      apply Z.eqb_neq in P. apply Z.eqb_neq in V. lia.
    + destruct (Z.min (value p) actual_value =? actual_value) eqn:P;
        cbn [negb]; eexists; (split; [reflexivity|]); cbn;
        rewrite ?orb_false_r, ?orb_true_r;
        repeat split; auto; try discriminate.
      apply Z.eqb_neq in P. apply Z.eqb_neq in V. lia.
    + rewrite (Hinv eq_refl eq_refl), V. cbn [negb].
      eexists. split; [reflexivity|]. cbn.
      rewrite ?orb_false_r, ?orb_true_r.
      repeat split; auto.
Qed.

Lemma for_lines_total p lines : forall st,
  List.existsb line_bad_value lines = false ->
  exists st', for_lines p lines st = (st', None).
Proof.
  induction lines as [|line rest IH]; intros st; simpl; [eauto|].
  intros H. apply orb_false_elim in H. destruct H as [Hl Hr].
  destruct (process_line p st line) as [s|e] eqn:E; [apply IH, Hr|].
  assert (Hb : line_bad_value line = true)
    by (apply (process_line_raises p st line); eauto).
  congruence.
Qed.

Lemma for_lines_raises p lines : forall st,
  List.existsb line_bad_value lines = true ->
  exists st', for_lines p lines st = (st', Some ValueError).
Proof.
  induction lines as [|line rest IH]; intros st; simpl; [discriminate|].
  intros H. destruct (process_line p st line) as [s|[]] eqn:E; [|eauto].
  apply IH. destruct (line_bad_value line) eqn:Hb; [|exact H].
  apply (process_line_raises p st line) in Hb. destruct Hb as [e Hb].
  congruence.
Qed.

(** The whole loop on lines without a bad value. *)
Lemma for_lines_effect p lines : forall st,
  (use_max p && use_min p)%bool = false ->
  new_value_ok p st ->
  List.existsb line_bad_value lines = false ->
  exists st',
    for_lines p lines st = (st', None) /\
    found st' = (found st || List.existsb (line_matches p) lines)%bool /\
    changed st' = (changed st || List.existsb (line_rewritten p) lines)%bool /\
    has_eof st' = (has_eof st || List.existsb is_sentinel lines)%bool /\
    new_value_ok p st' /\
    exists chunks,
      nf st' = nf st ++ chunks /\
      List.Forall2 (chunk_of p) (List.filter not_sentinel lines) chunks.
Proof.
  induction lines as [|line rest IH]; intros st Hflags Hinv; simpl.
  - intros _. exists st. rewrite !orb_false_r. repeat split; auto.
    exists []. rewrite app_nil_r. split; [reflexivity|constructor].
  - intros H. apply orb_false_elim in H. destruct H as [Hl Hr].
    destruct (process_line_effect p st line Hflags Hinv Hl)
      as (s & Hstep & Hf & Hc & He & _ & Hnf & Hrw & Hinv').
    rewrite Hstep.
    destruct (IH s Hflags Hinv' Hr)
      as (st' & Hrun & Hf' & Hc' & He' & Hinv'' & chunks & Hnf' & Hall).
    exists st'. split; [exact Hrun|].
    rewrite Hf', Hc', He', Hf, Hc, He, !orb_assoc.
    repeat (split; [reflexivity || assumption|]).
    unfold not_sentinel at 1. rewrite Hnf', Hnf.
    destruct (is_sentinel line); cbn [negb].
    + exists chunks. rewrite app_nil_r. split; [reflexivity|exact Hall].
    + destruct (line_rewritten p line) eqn:R.
      * exists (new_limit p s :: chunks). rewrite <- app_assoc.
        split; [reflexivity|]. constructor; [|exact Hall].
        unfold chunk_of. rewrite R. eauto.
      * exists (line :: chunks). rewrite <- app_assoc.
        split; [reflexivity|]. constructor; [|exact Hall].
        unfold chunk_of. rewrite R. reflexivity.
Qed.

Lemma initial_new_value_ok p : new_value_ok p (initial p).
Proof. intros _ _. reflexivity. Qed.

Lemma join_readlines s : Py.join (Py.readlines s) = s.
Proof.
  induction s as [|c r IH]; [reflexivity|].
  cbn [Py.readlines]. destruct (Ascii.eqb c "010").
  - cbn [Py.join fold_right]. fold (Py.join (Py.readlines r)).
    rewrite IH. reflexivity.
  - destruct (Py.readlines r) as [|l ls].
    + cbn in IH. subst r. reflexivity.
    + cbn [Py.join fold_right] in *. rewrite <- IH. reflexivity.
Qed.

Lemma Forall2_not_rewritten p lines chunks :
  List.existsb (line_rewritten p) lines = false ->
  List.Forall2 (chunk_of p) (List.filter not_sentinel lines) chunks ->
  chunks = List.filter not_sentinel lines.
Proof.
  revert chunks. induction lines as [|line rest IH]; intros chunks; simpl.
  - intros _ H. inversion H. reflexivity.
  - intros H. apply orb_false_elim in H. destruct H as [Hl Hr].
    destruct (not_sentinel line); [|apply IH, Hr].
    intros HF. inversion HF as [|? c ? cs Hc Hcs]; subst.
    unfold chunk_of in Hc. rewrite Hl in Hc. subst c.
    f_equal. apply IH; assumption.
Qed.

Lemma filter_no_sentinel lines :
  List.existsb is_sentinel lines = false ->
  List.filter not_sentinel lines = lines.
Proof.
  induction lines as [|line rest IH]; simpl; [reflexivity|].
  intros H. apply orb_false_elim in H. destruct H as [Hl Hr].
  unfold not_sentinel at 1. rewrite Hl. cbn [negb]. f_equal. apply IH, Hr.
Qed.

Lemma run_some_no_bad_value p content r :
  run p content = Some r ->
  List.existsb line_bad_value (Py.readlines content) = false.
Proof.
  unfold run, reconcile, reconcile_lines. intros H.
  destruct (List.existsb line_bad_value (Py.readlines content)) eqn:B;
    [|reflexivity].
  destruct (for_lines_raises p _ (initial p) B) as [st' Hr].
  rewrite Hr in H. discriminate.
Qed.

(** The result of a run that gets to the end, from the loop's result. *)
Lemma run_effect p content :
  (use_max p && use_min p)%bool = false ->
  List.existsb line_bad_value (Py.readlines content) = false ->
  exists st chunks,
    for_lines p (Py.readlines content) (initial p) = (st, None) /\
    found st = List.existsb (line_matches p) (Py.readlines content) /\
    changed st = List.existsb (line_rewritten p) (Py.readlines content) /\
    has_eof st = List.existsb is_sentinel (Py.readlines content) /\
    new_value_ok p st /\
    nf st = chunks /\
    List.Forall2 (chunk_of p)
      (List.filter not_sentinel (Py.readlines content)) chunks /\
    reconcile p content = (write_eof (append_missing p st), None).
Proof.
  intros Hflags Hbad.
  destruct (for_lines_effect p _ (initial p) Hflags
              (initial_new_value_ok p) Hbad)
    as (st & Hrun & Hf & Hc & He & Hinv & chunks & Hnf & Hall).
  exists st, chunks. cbn in Hf, Hc, He, Hnf.
  repeat (split; [assumption|]).
  unfold reconcile, reconcile_lines. rewrite Hrun. reflexivity.
Qed.

(** ** Properties of a run *)

Lemma run_fails_iff_bad_value_aux p content :
  run p content = None ->
  List.existsb line_bad_value (Py.readlines content) = true.
Proof.
  intros H.
  destruct (List.existsb line_bad_value (Py.readlines content)) eqn:B;
    [reflexivity|].
  destruct (for_lines_total p _ (initial p) B) as [st Hst].
  unfold run, reconcile, reconcile_lines in H. rewrite Hst in H.
  discriminate.
Qed.

(** X1. A run ends with [ValueError] exactly when some line of the file
    has four fields of which the last is not an integer; neither the
    request nor the other lines play a part in that. *)
Theorem run_fails_iff_bad_value (p : params) (content : string) :
  run p content = None <->
  List.existsb line_bad_value (Py.readlines content) = true.
Proof.
  split.
  - apply (run_fails_iff_bad_value_aux p).
  - intros B. destruct (for_lines_raises p _ (initial p) B) as [st Hst].
    unfold run, reconcile, reconcile_lines. rewrite Hst. reflexivity.
Qed.

(** The parts of the result of a run that gets to the end. *)
Lemma run_parts p content out c m :
  (use_max p && use_min p)%bool = false ->
  run p content = Some (out, c, m) ->
  c = (List.existsb (line_rewritten p) (Py.readlines content)
       || negb (List.existsb (line_matches p) (Py.readlines content)))%bool /\
  exists chunks tail,
    List.Forall2 (chunk_of p)
      (List.filter not_sentinel (Py.readlines content)) chunks /\
    (if List.existsb (line_matches p) (Py.readlines content)
     then tail = []
     else exists st, tail = [new_limit p st] /\ new_value st = value p) /\
    out = Py.join (chunks ++ tail ++
                   (if List.existsb is_sentinel (Py.readlines content)
                    then [EOF_MARK] else [])).
Proof.
  intros Hflags Hrun.
  pose proof (run_some_no_bad_value p content _ Hrun) as Hbad.
  destruct (run_effect p content Hflags Hbad)
    as (st & chunks & Hloop & Hf & Hc & He & _ & Hnf & Hall & Hrec).
  unfold run in Hrun. rewrite Hrec in Hrun. injection Hrun as <- <- _.
  rewrite <- Hf, <- He, <- Hc.
  pose proof (found_false_new_value p _ _ _ _ Hloop) as Hv.
  cbn [new_value initial] in Hv.
  unfold write_eof, append_missing. destruct (found st) eqn:F.
  - split.
    { rewrite orb_false_r. destruct (has_eof st); reflexivity. }
    exists chunks, []. split; [exact Hall|]. split; [reflexivity|].
    destruct (has_eof st); unfold nf_write; cbn [nf]; rewrite Hnf;
      [reflexivity | rewrite !app_nil_r; reflexivity].
  - unfold nf_write, set_message, set_changed. cbn [nf has_eof changed].
    split.
    { rewrite orb_true_r. destruct (has_eof st); reflexivity. }
    exists chunks. eexists [_]. split; [exact Hall|]. split.
    + eexists. split; [reflexivity|]. cbn. apply Hv. reflexivity.
    + destruct (has_eof st); cbn [nf]; rewrite Hnf, <- ?app_assoc;
        [reflexivity | rewrite app_nil_r; reflexivity].
Qed.

(** X2. The result reports a change exactly when the key is absent from
    the file or some record of the key has a value the policy replaces. *)
Theorem changed_iff_rewritten_or_absent (p : params) (content out m : string)
    (c : bool) :
  (use_max p && use_min p)%bool = false ->
  run p content = Some (out, c, m) ->
  c = (List.existsb (line_rewritten p) (Py.readlines content)
       || negb (List.existsb (line_matches p) (Py.readlines content)))%bool.
Proof. intros Hflags Hrun. apply (run_parts p content out c m Hflags Hrun). Qed.

Lemma changed_iff_rewritten_or_absent_witness :
  true = (List.existsb (line_rewritten (Sample.joe 200 ""))
            (Py.readlines Sample.two_marks)
          || negb (List.existsb (line_matches (Sample.joe 200 ""))
                     (Py.readlines Sample.two_marks)))%bool.
Proof.
  apply (changed_iff_rewritten_or_absent (Sample.joe 200 "")
           Sample.two_marks
           (Sample.joe_line "200" "" +:+ "# End of file")
           (Sample.joe_line "200" "") true); reflexivity.
Defined.

(** X3. When a run reports no change, its output is the input without its
    marker lines, followed by the marker when the input had one; an input
    without marker line comes out byte for byte. *)
Theorem unchanged_run_keeps_lines (p : params) (content out m : string) :
  (use_max p && use_min p)%bool = false ->
  run p content = Some (out, false, m) ->
  out = Py.join (List.filter not_sentinel (Py.readlines content))
          +:+ (if List.existsb is_sentinel (Py.readlines content)
               then EOF_MARK else "") /\
  (List.existsb is_sentinel (Py.readlines content) = false -> out = content).
Proof.
  intros Hflags Hrun.
  destruct (run_parts p content out false m Hflags Hrun)
    as (Hc & chunks & tail & Hall & Htail & ->).
  symmetry in Hc. apply orb_false_elim in Hc. destruct Hc as [Hrw Hm].
  apply negb_false_iff in Hm. rewrite Hm in Htail. subst tail.
  rewrite (Forall2_not_rewritten p _ _ Hrw Hall). cbn [app].
  assert (H1 : Py.join (List.filter not_sentinel (Py.readlines content) ++
                 (if List.existsb is_sentinel (Py.readlines content)
                  then [EOF_MARK] else [])) =
               Py.join (List.filter not_sentinel (Py.readlines content))
                 +:+ (if List.existsb is_sentinel (Py.readlines content)
                      then EOF_MARK else "")).
  { destruct (List.existsb is_sentinel (Py.readlines content)).
    - apply join_snoc.
    - rewrite app_nil_r, append_empty_r. reflexivity. }
  split; [exact H1|]. intros Hs. rewrite H1, Hs, append_empty_r.
  rewrite (filter_no_sentinel _ Hs). apply join_readlines.
Qed.

Lemma unchanged_run_keeps_lines_witness :
  Sample.joe_line "200" "" +:+ "# End of file" =
    Py.join (List.filter not_sentinel
               (Py.readlines (Sample.joe_line "200" "" +:+ "# End of file")))
      +:+ (if List.existsb is_sentinel
                (Py.readlines (Sample.joe_line "200" "" +:+ "# End of file"))
           then EOF_MARK else "") /\
  (List.existsb is_sentinel
     (Py.readlines (Sample.joe_line "200" "" +:+ "# End of file")) = false ->
   Sample.joe_line "200" "" +:+ "# End of file" =
     Sample.joe_line "200" "" +:+ "# End of file").
Proof.
  apply (unchanged_run_keeps_lines (Sample.joe 200 "")
           (Sample.joe_line "200" "" +:+ "# End of file")
           (Sample.joe_line "200" "" +:+ "# End of file")
           (Sample.joe_line "200" "")); reflexivity.
Defined.

(** ** Properties of [main] *)

(** X4. How [main] ends tells what it found. It ends in [fail_json], with
    the file system as it was, exactly when the target is missing or not
    writable or both flags are set; with the [ValueError] exactly when the
    checks pass and some line has a bad value; and in [exit_json], with the
    result of the run, otherwise. *)
Theorem main_termination (tmp_name backup_name : string) (p : params)
    (fs : gmap string file) :
  match main tmp_name backup_name p fs with
  | (fs', fail_json _) =>
      fs' = fs /\
      (fs !! dest p = None \/
       exists f, fs !! dest p = Some f /\
                 (writable f = false \/ (use_max p && use_min p)%bool = true))
  | (fs', traceback _) =>
      exists f, fs !! dest p = Some f /\ writable f = true /\
                (use_max p && use_min p)%bool = false /\
                List.existsb line_bad_value (Py.readlines (data f)) = true
  | (fs', exit_json c m b) =>
      exists f out, fs !! dest p = Some f /\ writable f = true /\
                    (use_max p && use_min p)%bool = false /\
                    run p (data f) = Some (out, c, m) /\
                    fs' !! dest p = Some (File true out) /\
                    b = (if backup p then Some backup_name else None)
  end.
Proof.
  unfold main. destruct (fs !! dest p) as [f|] eqn:Hf; [|auto].
  destruct (writable f) eqn:Hw; cbn [negb]; [|eauto 6].
  destruct (use_max p && use_min p)%bool eqn:Hflags; [eauto 6|].
  destruct (reconcile p (data f)) as [st [e|]] eqn:Hr.
  - exists f. repeat (split; [assumption || reflexivity|]).
    apply (run_fails_iff_bad_value_aux p). unfold run. rewrite Hr. reflexivity.
  - exists f, (Py.join (nf st)). repeat (split; [assumption || reflexivity|]).
    split; [unfold run; rewrite Hr; reflexivity|].
    split; [|reflexivity].
    unfold atomic_move. rewrite lookup_insert_eq. cbn [data].
    rewrite lookup_insert_eq. do 2 f_equal.
    destruct (decide (tmp_name = dest p)) as [->|Hne].
    + rewrite lookup_insert_eq. reflexivity.
    + rewrite lookup_insert_ne by exact Hne.
      assert (Hd : (if backup p then <[backup_name:=f]> fs else fs) !! dest p
                   = Some f).
      { destruct (backup p); [|exact Hf].
        destruct (decide (backup_name = dest p)) as [->|Hb];
          [apply lookup_insert_eq | rewrite lookup_insert_ne by exact Hb;
                                    exact Hf]. }
      rewrite Hd. exact Hw.
Qed.

Lemma main_commit_fs (tmp_name backup_name : string) (p : params)
    (fs : gmap string file) (f : file) (out m : string) (c : bool) :
  fs !! dest p = Some f ->
  writable f = true ->
  (use_max p && use_min p)%bool = false ->
  tmp_name <> dest p ->
  backup_name <> dest p ->
  tmp_name <> backup_name ->
  run p (data f) = Some (out, c, m) ->
  exists fs',
    main tmp_name backup_name p fs =
      (fs', exit_json c m (if backup p then Some backup_name else None)) /\
    fs' !! dest p = Some (File (writable f) out) /\
    fs' !! tmp_name = None /\
    (backup p = true -> fs' !! backup_name = Some f).
Proof.
  intros Hf Hw Hflags Htd Hbd Htb Hrun.
  unfold run in Hrun.
  destruct (reconcile p (data f)) as [st [e|]] eqn:Hr; [discriminate|].
  injection Hrun as <- <- <-.
  unfold main. rewrite Hf, Hw, Hflags, Hr. cbn [negb].
  eexists. split; [reflexivity|].
  unfold atomic_move. rewrite lookup_insert_eq. cbn [data].
  rewrite (lookup_insert_ne _ tmp_name (dest p)) by exact Htd.
  assert (Hd : (if backup p then <[backup_name:=f]> fs else fs) !! dest p
               = Some f).
  { destruct (backup p); [|exact Hf].
    rewrite lookup_insert_ne by exact Hbd. exact Hf. }
  rewrite Hd, ?Hw. split; [apply lookup_insert_eq|]. split.
  - rewrite lookup_insert_ne by congruence. apply lookup_delete_eq.
  - intros Hb. rewrite Hb.
    rewrite lookup_insert_ne by congruence.
    rewrite lookup_delete_ne by exact Htb.
    rewrite lookup_insert_ne by exact Htb. apply lookup_insert_eq.
Qed.

(** X5. When the checks pass and the run gets to the end, [main] commits:
    the target holds the output of the run and keeps its permission bits,
    the temporary file is gone, the backup, when one was asked for, holds
    the file as it was before, and the result carries [changed], [msg] and
    the name of the backup. *)
Theorem main_commit (tmp_name backup_name : string) (p : params)
    (fs : gmap string file) (f : file) (out m : string) (c : bool) :
  fs !! dest p = Some f ->
  writable f = true ->
  (use_max p && use_min p)%bool = false ->
  tmp_name <> dest p ->
  backup_name <> dest p ->
  tmp_name <> backup_name ->
  run p (data f) = Some (out, c, m) ->
  exists fs',
    main tmp_name backup_name p fs =
      (fs', exit_json c m (if backup p then Some backup_name else None)) /\
    fs' !! dest p = Some (File (writable f) out) /\
    fs' !! tmp_name = None /\
    (backup p = true -> fs' !! backup_name = Some f).
Proof. apply main_commit_fs. Qed.

Lemma main_commit_witness :
  exists fs',
    main Sample.tmp Sample.bak
      (Params "joe" "soft" "nofile" 200 false false true
         Sample.limits_conf "")
      (Sample.fs_with Sample.two_marks) =
      (fs', exit_json true (Sample.joe_line "200" "") (Some Sample.bak)) /\
    fs' !! Sample.limits_conf =
      Some (File true (Sample.joe_line "200" "" +:+ "# End of file")) /\
    fs' !! Sample.tmp = None /\
    (true = true -> fs' !! Sample.bak = Some (File true Sample.two_marks)).
Proof.
  apply (main_commit Sample.tmp Sample.bak
           (Params "joe" "soft" "nofile" 200 false false true
              Sample.limits_conf "")
           (Sample.fs_with Sample.two_marks) (File true Sample.two_marks)
           (Sample.joe_line "200" "" +:+ "# End of file")
           (Sample.joe_line "200" "") true);
    first [reflexivity | discriminate].
Defined.

(** X6. However it ends, [main] leaves every file other than the target,
    the temporary file and the backup as it was. *)
Theorem main_touches_only_its_files (tmp_name backup_name : string)
    (p : params) (fs : gmap string file) (path : string) :
  path <> dest p ->
  path <> tmp_name ->
  path <> backup_name ->
  fst (main tmp_name backup_name p fs) !! path = fs !! path.
Proof.
  intros Hd Ht Hb. unfold main.
  destruct (fs !! dest p) as [f|] eqn:Hf; [|reflexivity].
  destruct (writable f); cbn [negb]; [|reflexivity].
  destruct (use_max p && use_min p)%bool; [reflexivity|].
  assert (Hfs : (if backup p then <[backup_name:=f]> fs else fs) !! path
                = fs !! path).
  { destruct (backup p); [|reflexivity].
    apply lookup_insert_ne. congruence. }
  destruct (reconcile p (data f)) as [st [e|]]; cbn [fst].
  - rewrite lookup_insert_ne by congruence. exact Hfs.
  - unfold atomic_move. rewrite lookup_insert_eq.
    rewrite lookup_insert_ne by congruence.
    rewrite lookup_delete_ne by congruence.
    rewrite lookup_insert_ne by congruence. exact Hfs.
Qed.

Lemma main_touches_only_its_files_witness :
  fst (main Sample.tmp Sample.bak (Sample.joe 200 "")
         (<["/etc/passwd" := File false "root:x:0:0"]>
            (Sample.fs_with Sample.two_marks))) !! "/etc/passwd" =
  <["/etc/passwd" := File false "root:x:0:0"]>
    (Sample.fs_with Sample.two_marks) !! "/etc/passwd".
Proof.
  apply (main_touches_only_its_files Sample.tmp Sample.bak
           (Sample.joe 200 "")
           (<["/etc/passwd" := File false "root:x:0:0"]>
              (Sample.fs_with Sample.two_marks)) "/etc/passwd");
    discriminate.
Defined.

(** ** Writing a record and reading it back *)

Lemma digits_of_uint_acc d : forall acc,
  Py.digits (Zpos acc) (NilEmpty.string_of_uint d)
    = Some (Zpos (Pos.of_uint_acc d acc)).
Proof.
  induction d; intros acc; [reflexivity|..];
    cbn [NilEmpty.string_of_uint Pos.of_uint_acc Py.digits];
    rewrite <- IHd;
    match goal with
    | |- context [Py.digit_val ?c] =>
        let v := eval vm_compute in (Py.digit_val c) in
        change (Py.digit_val c) with v
    end; cbv beta iota; f_equal; lia.
Qed.

Lemma digits_of_uint d :
  Py.digits 0 (NilEmpty.string_of_uint d) = Some (Z.of_N (Pos.of_uint d)).
Proof.
  induction d; cbn [NilEmpty.string_of_uint Pos.of_uint Py.digits];
    [reflexivity|..];
    match goal with
    | |- context [Py.digit_val ?c] =>
        let v := eval vm_compute in (Py.digit_val c) in
        change (Py.digit_val c) with v
    end; cbv beta iota;
    [exact IHd | apply (digits_of_uint_acc d)..].
Qed.

Lemma plain_string_of_uint d : plain (NilEmpty.string_of_uint d) = true.
Proof. induction d; [reflexivity|..]; cbn; exact IHd. Qed.

Lemma to_uint_string_cons p :
  exists c r, NilEmpty.string_of_uint (Pos.to_uint p) = String c r /\
              Py.digit_val c <> None.
Proof.
  pose proof (DecimalPos.Unsigned.to_uint_nonnil p) as H.
  destruct (Pos.to_uint p); [congruence|..];
    eexists _, _; (split; [reflexivity|]); discriminate.
Qed.

Lemma rstrip_plain s : plain s = true -> Py.rstrip s = s.
Proof.
  induction s as [|c r IH]; [reflexivity|]. cbn [plain Py.rstrip].
  intros H. apply andb_prop in H. destruct H as [H Hr].
  apply andb_prop in H. destruct H as [Hs _].
  apply negb_true_iff in Hs. rewrite Hs, (IH Hr). reflexivity.
Qed.

Lemma lstrip_token s : is_token s = true -> Py.lstrip s = s.
Proof.
  destruct s as [|c r]; [reflexivity|]. unfold is_token.
  cbn [plain Py.is_empty negb andb Py.lstrip].
  destruct (Py.isspace c); [discriminate|reflexivity].
Qed.

Lemma strip_token s : is_token s = true -> Py.strip s = s.
Proof.
  intros H. unfold Py.strip. rewrite (lstrip_token s H).
  apply rstrip_plain. unfold is_token in H.
  apply andb_prop in H. apply H.
Qed.

Lemma str_is_token z : is_token (Py.str z) = true.
Proof.
  unfold is_token, Py.str. destruct z as [|q|q]; [reflexivity|..];
    cbn [Z.to_int NilZero.string_of_int NilZero.string_of_uint];
    destruct (to_uint_string_cons q) as (c & r & E & _);
    pose proof (plain_string_of_uint (Pos.to_uint q)) as Hp.
  - destruct (Pos.to_uint q); cbn; exact Hp.
  - cbn. destruct (Pos.to_uint q); exact Hp.
Qed.

(** [int(str(n))] is [n]. *)
Lemma int_str z : Py.int (Py.str z) = Some z.
Proof.
  unfold Py.int. rewrite (strip_token _ (str_is_token z)).
  unfold Py.str. destruct z as [|q|q]; [reflexivity|..];
    cbn [Z.to_int NilZero.string_of_int NilZero.string_of_uint];
    pose proof (digits_of_uint (Pos.to_uint q)) as Hd;
    rewrite DecimalPos.Unsigned.of_to in Hd;
    destruct (to_uint_string_cons q) as (c & r & E & Hc).
  - assert (Hs : NilZero.string_of_uint (Pos.to_uint q)
                 = NilEmpty.string_of_uint (Pos.to_uint q))
      by (destruct (Pos.to_uint q); [discriminate E|reflexivity..]).
    fold (NilZero.string_of_uint (Pos.to_uint q)). rewrite Hs, E.
    rewrite E in Hd.
    assert (Hp : Ascii.eqb c "+" = false /\ Ascii.eqb c "-" = false).
    { split; apply Ascii.eqb_neq; intros ->; apply Hc; reflexivity. }
    destruct Hp as [-> ->]. exact Hd.
  - assert (Hs : NilZero.string_of_uint (Pos.to_uint q)
                 = NilEmpty.string_of_uint (Pos.to_uint q))
      by (destruct (Pos.to_uint q); [discriminate E|reflexivity..]).
    fold (NilZero.string_of_uint (Pos.to_uint q)). rewrite Hs.
    cbn [Ascii.eqb Bool.eqb]. rewrite E. cbn [Py.is_empty].
    rewrite <- E, Hd. reflexivity.
Qed.

Lemma token_plain s : is_token s = true -> plain s = true.
Proof. unfold is_token. intros H. apply andb_prop in H. apply H. Qed.

Lemma token_cons s :
  is_token s = true ->
  exists c r, s = String c r /\ Py.isspace c = false /\
              Ascii.eqb c "#" = false /\ plain r = true.
Proof.
  destruct s as [|c r]; [discriminate|]. unfold is_token.
  cbn [plain Py.is_empty negb andb].
  destruct (Py.isspace c) eqn:Hs; [discriminate|].
  destruct (Ascii.eqb c "#") eqn:Hh; [discriminate|]. cbn [negb andb].
  intros H. exists c, r. auto.
Qed.

Lemma plain_cons c r :
  plain (String c r) = true ->
  Py.isspace c = false /\ Ascii.eqb c "#" = false /\ plain r = true.
Proof.
  cbn [plain]. destruct (Py.isspace c) eqn:Hs; [discriminate|].
  destruct (Ascii.eqb c "#") eqn:Hh; [discriminate|]. cbn [negb andb]. auto.
Qed.

Lemma app_cons c a r : String c a +:+ r = String c (a +:+ r).
Proof. reflexivity. Qed.

Lemma app_nil r : "" +:+ r = r.
Proof. reflexivity. Qed.

(** Whitespace after a token becomes one space. *)
Lemma sub_space_plain_ws a w r :
  plain a = true -> Py.isspace w = true ->
  Py.sub_space false (a +:+ String w r)
    = a +:+ String " " (Py.sub_space true r).
Proof.
  intros Ha Hw. induction a as [|c a IH].
  - rewrite !app_nil. cbn [Py.sub_space]. rewrite Hw. reflexivity.
  - apply plain_cons in Ha. destruct Ha as (Hs & _ & Ha).
    rewrite !app_cons. cbn [Py.sub_space]. rewrite Hs, (IH Ha). reflexivity.
Qed.

Lemma sub_space_true_token a r :
  is_token a = true ->
  Py.sub_space true (a +:+ r) = Py.sub_space false (a +:+ r).
Proof.
  intros Ha. destruct (token_cons a Ha) as (c & a' & -> & Hs & _).
  rewrite app_cons. cbn [Py.sub_space]. rewrite Hs. reflexivity.
Qed.

Lemma rstrip_plain_app a r :
  plain a = true -> Py.rstrip (a +:+ r) = a +:+ Py.rstrip r.
Proof.
  intros Ha. induction a as [|c a IH]; [reflexivity|].
  apply plain_cons in Ha. destruct Ha as (Hs & _ & Ha).
  rewrite !app_cons. cbn [Py.rstrip]. rewrite Hs, (IH Ha). reflexivity.
Qed.

Lemma rstrip_space_token a r :
  is_token a = true ->
  Py.rstrip (String " " (a +:+ r)) = String " " (a +:+ Py.rstrip r).
Proof.
  intros Ha. cbn [Py.rstrip]. rewrite (rstrip_plain_app a r (token_plain a Ha)).
  destruct (token_cons a Ha) as (c & a' & -> & _). reflexivity.
Qed.

Lemma fst_split1_plain_app a r :
  plain a = true ->
  fst (Py.split1 "#" (a +:+ r)) = a +:+ fst (Py.split1 "#" r).
Proof.
  intros Ha. induction a as [|c a IH]; [reflexivity|].
  apply plain_cons in Ha. destruct Ha as (_ & Hh & Ha).
  rewrite !app_cons. cbn [Py.split1]. rewrite Hh.
  specialize (IH Ha). destruct (Py.split1 "#" (a +:+ r)) as [h t].
  cbn [fst] in *. rewrite IH. reflexivity.
Qed.

Lemma fst_split1_space r :
  fst (Py.split1 "#" (String " " r)) = String " " (fst (Py.split1 "#" r)).
Proof.
  cbn [Py.split1]. change (Ascii.eqb " " "#") with false. cbv iota.
  destruct (Py.split1 "#" r). reflexivity.
Qed.

Lemma split_plain_space a r :
  plain a = true ->
  Py.split " " (a +:+ String " " r) = a :: Py.split " " r.
Proof.
  intros Ha. induction a as [|c a IH].
  - rewrite app_nil. reflexivity.
  - apply plain_cons in Ha. destruct Ha as (Hs & _ & Ha).
    rewrite !app_cons. cbn [Py.split].
    assert (Hc : Ascii.eqb c " " = false).
    { apply Ascii.eqb_neq. intros ->. discriminate Hs. }
    rewrite Hc, (IH Ha). reflexivity.
Qed.

Lemma split_plain a : plain a = true -> Py.split " " a = [a].
Proof.
  intros Ha. induction a as [|c a IH]; [reflexivity|].
  apply plain_cons in Ha. destruct Ha as (Hs & _ & Ha).
  cbn [Py.split].
  assert (Hc : Ascii.eqb c " " = false).
  { apply Ascii.eqb_neq. intros ->. discriminate Hs. }
  rewrite Hc, (IH Ha). reflexivity.
Qed.

(** The fields of a record written with tabs, with or without a comment
    behind a tab and a hash. *)
Lemma fields_of_record d t i v c :
  is_token d = true -> is_token t = true -> is_token i = true ->
  is_token v = true ->
  c = "" \/ (exists r, c = Py.TAB +:+ "#" +:+ r) ->
  line_fields_of
    (d +:+ Py.TAB +:+ t +:+ Py.TAB +:+ i +:+ Py.TAB +:+ v +:+ c +:+ Py.NL)
    = [d; t; i; v].
Proof.
  intros Hd Ht Hi Hv Hc.
  pose proof (token_plain _ Hd) as Pd. pose proof (token_plain _ Ht) as Pt.
  pose proof (token_plain _ Hi) as Pi. pose proof (token_plain _ Hv) as Pv.
  unfold line_fields_of, record_body, normalized, Py.strip.
  change (Py.TAB +:+ t +:+ Py.TAB +:+ i +:+ Py.TAB +:+ v +:+ c +:+ Py.NL)
    with (String "009" (t +:+ String "009" (i +:+ String "009"
            (v +:+ c +:+ Py.NL)))).
  rewrite (sub_space_plain_ws d) by (exact Pd || reflexivity).
  rewrite (sub_space_true_token t) by exact Ht.
  rewrite (sub_space_plain_ws t) by (exact Pt || reflexivity).
  rewrite (sub_space_true_token i) by exact Hi.
  rewrite (sub_space_plain_ws i) by (exact Pi || reflexivity).
  rewrite (sub_space_true_token v) by exact Hv.
  assert (Hl : forall r, Py.lstrip (d +:+ r) = d +:+ r).
  { intros r. destruct (token_cons d Hd) as (x & d' & -> & Hs & _).
    rewrite app_cons. cbn [Py.lstrip]. rewrite Hs. reflexivity. }
  rewrite Hl.
  destruct Hc as [-> | [r ->]].
  - change ("" +:+ Py.NL) with (String "010" "").
    rewrite (sub_space_plain_ws v) by (exact Pv || reflexivity).
    cbn [Py.sub_space].
    rewrite (rstrip_plain_app d) by exact Pd.
    rewrite !rstrip_space_token by assumption.
    change (Py.rstrip (String " " "")) with "".
    rewrite (fst_split1_plain_app d) by exact Pd.
    rewrite fst_split1_space, (fst_split1_plain_app t) by exact Pt.
    rewrite fst_split1_space, (fst_split1_plain_app i) by exact Pi.
    rewrite fst_split1_space, (fst_split1_plain_app v) by exact Pv.
    cbn [Py.split1 fst].
    rewrite (rstrip_plain_app d) by exact Pd.
    rewrite !rstrip_space_token by assumption.
    change (Py.rstrip "") with "". rewrite append_empty_r.
    rewrite !split_plain_space by assumption.
    rewrite (split_plain v Pv). reflexivity.
  - change ((Py.TAB +:+ "#" +:+ r) +:+ Py.NL)
      with (String "009" (String "#" (r +:+ Py.NL))).
    rewrite (sub_space_plain_ws v) by (exact Pv || reflexivity).
    cbn [Py.sub_space]. change (Py.isspace "#") with false. cbv iota.
    rewrite (rstrip_plain_app d) by exact Pd.
    rewrite !rstrip_space_token by assumption.
    cbn [Py.rstrip]. change (Py.isspace "#") with false.
    cbn [andb]. change (Py.isspace " ") with true. cbn [andb Py.is_empty].
    rewrite (fst_split1_plain_app d) by exact Pd.
    rewrite fst_split1_space, (fst_split1_plain_app t) by exact Pt.
    rewrite fst_split1_space, (fst_split1_plain_app i) by exact Pi.
    rewrite fst_split1_space, (fst_split1_plain_app v) by exact Pv.
    rewrite fst_split1_space. cbn [Py.split1 fst].
    rewrite (rstrip_plain_app d) by exact Pd.
    rewrite !rstrip_space_token by assumption.
    change (Py.rstrip (String " " "")) with "". rewrite append_empty_r.
    rewrite !split_plain_space by assumption.
    rewrite (split_plain v Pv). reflexivity.
Qed.

Lemma no_newline_app a b :
  no_newline a = true -> no_newline b = true -> no_newline (a +:+ b) = true.
Proof.
  intros Ha Hb. induction a as [|c a IH]; [exact Hb|].
  rewrite app_cons. cbn [no_newline] in *.
  apply andb_prop in Ha. destruct Ha as [-> Ha]. exact (IH Ha).
Qed.

Lemma plain_no_newline a : plain a = true -> no_newline a = true.
Proof.
  induction a as [|c a IH]; [reflexivity|]. intros H.
  apply plain_cons in H. destruct H as (Hs & _ & Ha).
  cbn [no_newline]. rewrite (IH Ha), andb_true_r.
  apply negb_true_iff, Ascii.eqb_neq. intros ->. discriminate Hs.
Qed.

Lemma readlines_no_newline a :
  no_newline a = true -> Py.readlines (a +:+ Py.NL) = [a +:+ Py.NL].
Proof.
  induction a as [|c a IH]; [reflexivity|]. cbn [no_newline]. intros H.
  apply andb_prop in H. destruct H as [Hc Ha]. apply negb_true_iff in Hc.
  rewrite app_cons. cbn [Py.readlines]. rewrite Hc, (IH Ha). reflexivity.
Qed.

Lemma record_text_fields p c :
  is_token (domain p) = true -> is_token (limit_type p) = true ->
  is_token (limit_item p) = true ->
  c = "" \/ (exists r, c = Py.TAB +:+ "#" +:+ r) ->
  classify (record_text p c)
    = RecordLine (domain p) (limit_type p) (limit_item p) (value p).
Proof.
  intros Hd Ht Hi Hc. unfold record_text.
  rewrite (classify_four_fields _ (domain p) (limit_type p) (limit_item p)
             (Py.str (value p))).
  - rewrite int_str. reflexivity.
  - apply fields_of_record; auto using str_is_token.
Qed.

(** X7. A record written for a request whose domain, type and item are
    plain tokens, with no comment or with a comment that has no newline
    behind a tab and a hash, is one physical line, and the loop reads it
    back as the record of that key with the requested value. *)
Theorem record_reads_back (p : params) (c : string) :
  is_token (domain p) = true ->
  is_token (limit_type p) = true ->
  is_token (limit_item p) = true ->
  c = "" \/ (exists r, c = Py.TAB +:+ "#" +:+ r /\ no_newline r = true) ->
  Py.readlines (record_text p c) = [record_text p c] /\
  classify (record_text p c)
    = RecordLine (domain p) (limit_type p) (limit_item p) (value p).
Proof.
  intros Hd Ht Hi Hc. split.
  - unfold record_text.
    assert (Hn : no_newline (domain p +:+ Py.TAB +:+ limit_type p +:+ Py.TAB
                   +:+ limit_item p +:+ Py.TAB +:+ Py.str (value p) +:+ c)
                 = true).
    { repeat apply no_newline_app;
        try (apply plain_no_newline, token_plain; assumption);
        try reflexivity.
      - apply plain_no_newline, token_plain, str_is_token.
      - destruct Hc as [-> | (r & -> & Hr)]; [reflexivity|].
        repeat apply no_newline_app; try reflexivity. exact Hr. }
    pose proof (readlines_no_newline _ Hn) as H.
    rewrite !append_assoc_str in H. exact H.
  - apply record_text_fields; auto.
    destruct Hc as [-> | (r & -> & _)]; eauto.
Qed.

Lemma record_reads_back_witness :
  Py.readlines (record_text (Sample.joe 64000 "")
                  (Py.TAB +:+ "#" +:+ "max files"))
    = [record_text (Sample.joe 64000 "") (Py.TAB +:+ "#" +:+ "max files")] /\
  classify (record_text (Sample.joe 64000 "")
              (Py.TAB +:+ "#" +:+ "max files"))
    = RecordLine "joe" "soft" "nofile" 64000.
Proof.
  apply (record_reads_back (Sample.joe 64000 "")
           (Py.TAB +:+ "#" +:+ "max files")); try reflexivity.
  right. exists "max files". split; reflexivity.
Defined.

(** ** The loop and its description without variables *)

Lemma for_lines_rewrite p lines : forall st,
  (use_max p && use_min p)%bool = false ->
  new_value_ok p st ->
  List.existsb line_bad_value lines = false ->
  exists st',
    for_lines p lines st = (st', None) /\
    nf st' = nf st ++ rewrite_lines p (new_comment st) lines /\
    new_comment st' = comment_after (new_comment st) lines.
Proof.
  induction lines as [|line rest IH]; intros st Hflags Hinv; simpl.
  - intros _. exists st. rewrite app_nil_r. auto.
  - intros H. apply orb_false_elim in H. destruct H as [Hl Hr].
    destruct (process_line_effect p st line Hflags Hinv Hl)
      as (s & Hstep & _ & _ & _ & Hcom & Hnf & Hrw & Hinv').
    rewrite Hstep. fold (line_comment (new_comment st) line) in Hcom.
    destruct (IH s Hflags Hinv' Hr) as (st' & Hrun & Hnf' & Hcom').
    exists st'. split; [exact Hrun|]. rewrite Hnf', Hcom', Hnf, Hcom.
    split; [|reflexivity]. rewrite <- app_assoc. do 2 f_equal.
    destruct (is_sentinel line); [reflexivity|].
    destruct (line_rewritten p line); [|reflexivity].
    unfold new_limit, record_text. rewrite (Hrw eq_refl), Hcom. reflexivity.
Qed.

Lemma run_rewrite_file p content :
  (use_max p && use_min p)%bool = false ->
  List.existsb line_bad_value (Py.readlines content) = false ->
  exists m,
    run p content = Some (rewrite_file p content, reports_change p content, m).
Proof.
  intros Hflags Hbad.
  destruct (for_lines_rewrite p _ (initial p) Hflags
              (initial_new_value_ok p) Hbad) as (st & Hrun & Hnf & Hcom).
  destruct (run_effect p content Hflags Hbad)
    as (st1 & chunks & Hrun1 & Hf & Hc & He & _ & _ & _ & Hrec).
  rewrite Hrun in Hrun1. injection Hrun1 as <-.
  cbn [nf new_comment initial app] in Hnf, Hcom.
  pose proof (found_false_new_value p _ _ _ _ Hrun) as Hv.
  cbn [new_value initial] in Hv.
  unfold run. rewrite Hrec. eexists. f_equal. f_equal. f_equal.
  - unfold rewrite_file. cbv zeta. rewrite <- Hf, <- He.
    unfold write_eof, append_missing. destruct (found st) eqn:F.
    + destruct (has_eof st); unfold nf_write; cbn [nf]; rewrite Hnf;
        [reflexivity | rewrite !app_nil_r; reflexivity].
    + unfold nf_write, set_message, set_changed. cbn [nf has_eof].
      assert (Hn : new_limit p
                     {| nf := nf st; found := found st; has_eof := has_eof st;
                        new_value := new_value st;
                        new_comment := new_comment st; changed := true;
                        message := message st |}
                   = record_text p
                       (comment_after (comment p) (Py.readlines content))).
      { unfold new_limit, record_text. cbn [new_value new_comment].
        rewrite (Hv eq_refl), Hcom. reflexivity. }
      rewrite Hn, Hnf.
      destruct (has_eof st); cbn [nf]; rewrite <- ?app_assoc;
        [reflexivity | rewrite app_nil_r; reflexivity].
  - unfold reports_change. cbv zeta. rewrite <- Hf, <- Hc.
    unfold write_eof, append_missing, nf_write, set_message, set_changed.
    destruct (found st); cbn [negb has_eof changed];
      [rewrite orb_false_r | rewrite orb_true_r];
      destruct (has_eof st); reflexivity.
Qed.

(** ** A second run of the same request *)

Lemma existsb_false {A} (f : A -> bool) l :
  List.existsb f l = false <-> (forall x, In x l -> f x = false).
Proof.
  induction l as [|a l IH]; simpl.
  - split; [intros _ x []|reflexivity].
  - rewrite orb_false_iff, IH. split.
    + intros [Ha Hl] x [<-|Hx]; auto.
    + intros H. split; [apply H; left; reflexivity|].
      intros x Hx. apply H. right. exact Hx.
Qed.

Lemma existsb_true_in {A} (f : A -> bool) l x :
  In x l -> f x = true -> List.existsb f l = true.
Proof. intros Hx Hf. apply List.existsb_exists. eauto. Qed.

Lemma join_app a b : Py.join (a ++ b) = Py.join a +:+ Py.join b.
Proof.
  induction a as [|x a IH]; [reflexivity|].
  cbn [app Py.join fold_right] in *. fold (Py.join (a ++ b)).
  fold (Py.join a). rewrite IH, append_assoc_str. reflexivity.
Qed.

(** A physical line read from a file is one physical line. *)
Lemma readlines_element_single s : forall l,
  In l (Py.readlines s) -> Py.readlines l = [l].
Proof.
  induction s as [|c r IH]; intros l; [intros []|].
  cbn [Py.readlines]. destruct (Ascii.eqb c "010") eqn:Hc.
  - intros [<-|Hl]; [|apply IH, Hl].
    cbn [Py.readlines]. rewrite Hc. reflexivity.
  - destruct (Py.readlines r) as [|l0 ls] eqn:Hr.
    + intros [<-|[]]. cbn [Py.readlines]. rewrite Hc. reflexivity.
    + intros [<-|Hl]; [|apply IH; right; exact Hl].
      cbn [Py.readlines]. rewrite Hc, (IH l0 (or_introl eq_refl)).
      reflexivity.
Qed.

Lemma readlines_join ls t :
  (forall l, In l ls -> Py.readlines l = [l] /\ Py.endswith_nl l = true) ->
  Py.readlines (Py.join ls +:+ t) = ls ++ Py.readlines t.
Proof.
  induction ls as [|l ls IH]; intros H; [reflexivity|].
  destruct (H l (or_introl eq_refl)) as [H1 H2].
  cbn [Py.join fold_right]. fold (Py.join ls).
  rewrite append_assoc_str, (readlines_app l _ (or_intror H2)), H1.
  rewrite IH; [reflexivity|]. intros x Hx. apply H. right. exact Hx.
Qed.

Lemma rewrite_lines_unchanged p ls : forall c,
  List.existsb (line_rewritten p) ls = false ->
  rewrite_lines p c ls = List.filter not_sentinel ls.
Proof.
  induction ls as [|l ls IH]; intros c; simpl; [reflexivity|].
  intros H. apply orb_false_elim in H. destruct H as [Hl Hr].
  rewrite Hl, (IH _ Hr). unfold not_sentinel at 2.
  destruct (is_sentinel l); reflexivity.
Qed.

Lemma line_comment_empty line :
  Py.startswith line "#" = true \/ old_comment_of line = "" ->
  line_comment "" line = "".
Proof.
  unfold line_comment, next_comment. intros [->| ->]; [reflexivity|].
  destruct (Py.startswith line "#"); [reflexivity|].
  destruct (Py.is_empty (normalized line)); reflexivity.
Qed.

Lemma comment_after_empty lines :
  (forall line, In line lines ->
     Py.startswith line "#" = true \/ old_comment_of line = "") ->
  comment_after "" lines = "".
Proof.
  unfold comment_after. induction lines as [|l ls IH]; [reflexivity|].
  intros H. cbn [fold_left].
  rewrite (line_comment_empty l (H l (or_introl eq_refl))).
  apply IH. intros x Hx. apply H. right. exact Hx.
Qed.

(** Without comments in play, every chunk of the loop is the record of
    the request or a line of the input that is neither a marker line nor
    rewritten; and a key present in the input is present in the chunks. *)
Lemma rewrite_lines_comment_free p lines :
  line_matches p (record_text p "") = true ->
  (forall line, In line lines ->
     Py.startswith line "#" = true \/ old_comment_of line = "") ->
  (forall ch, In ch (rewrite_lines p "" lines) ->
     ch = record_text p "" \/
     (In ch lines /\ is_sentinel ch = false /\ line_rewritten p ch = false)) /\
  (List.existsb (line_matches p) lines = true ->
   List.existsb (line_matches p) (rewrite_lines p "" lines) = true).
Proof.
  intros HR. induction lines as [|l ls IH]; intros H.
  - split; [intros ch []|discriminate].
  - cbn [rewrite_lines].
    rewrite (line_comment_empty l (H l (or_introl eq_refl))).
    destruct IH as [IH1 IH2]; [intros x Hx; apply H; right; exact Hx|].
    split.
    + intros ch Hch. apply in_app_or in Hch. destruct Hch as [Hch|Hch].
      * destruct (is_sentinel l) eqn:S; [destruct Hch|].
        destruct (line_rewritten p l) eqn:W; destruct Hch as [<-|[]].
        -- left. reflexivity.
        -- right. repeat split; auto. left. reflexivity.
      * destruct (IH1 ch Hch) as [->|(Hin & Hs & Hw)]; [left; reflexivity|].
        right. repeat split; auto. right. exact Hin.
    + cbn [List.existsb]. rewrite List.existsb_app. intros Hm.
      apply orb_true_iff in Hm. destruct Hm as [Hm|Hm];
        [|rewrite (IH2 Hm); apply orb_true_r].
      assert (S : is_sentinel l = false).
      { rewrite is_sentinel_classify. unfold line_matches in Hm.
        destruct (classify l); try discriminate Hm. reflexivity. }
      rewrite S. destruct (line_rewritten p l); cbn [List.existsb];
        [rewrite HR | rewrite Hm]; reflexivity.
Qed.

Lemma record_text_facts p :
  is_token (domain p) = true -> is_token (limit_type p) = true ->
  is_token (limit_item p) = true ->
  line_bad_value (record_text p "") = false /\
  line_rewritten p (record_text p "") = false /\
  line_matches p (record_text p "") = true /\
  is_sentinel (record_text p "") = false /\
  Py.readlines (record_text p "") = [record_text p ""] /\
  Py.endswith_nl (record_text p "") = true.
Proof.
  intros Hd Ht Hi.
  pose proof (record_text_fields p "" Hd Ht Hi (or_introl eq_refl)) as Hc.
  assert (Hk : key_matches p (domain p) (limit_type p) (limit_item p) = true)
    by (unfold key_matches; rewrite !String.eqb_refl; reflexivity).
  assert (Hp : (policy_value p (value p) =? value p) = true).
  { apply Z.eqb_eq. unfold policy_value.
    destruct (use_max p); [apply Z.max_id|].
    destruct (use_min p); [apply Z.min_id|reflexivity]. }
  rewrite is_sentinel_classify.
  unfold line_bad_value, line_rewritten, line_matches. rewrite Hc, Hk, Hp.
  repeat (split; [reflexivity|]). split.
  - unfold record_text.
    assert (Hn : no_newline (domain p +:+ Py.TAB +:+ limit_type p +:+ Py.TAB
                   +:+ limit_item p +:+ Py.TAB +:+ Py.str (value p) +:+ "")
                 = true).
    { repeat apply no_newline_app;
        try (apply plain_no_newline, token_plain; assumption);
        try reflexivity.
      apply plain_no_newline, token_plain, str_is_token. }
    pose proof (readlines_no_newline _ Hn) as H.
    rewrite !append_assoc_str in H. exact H.
  - unfold record_text. repeat apply endswith_nl_app. reflexivity.
Qed.

(** The lines of the output of a run, for a request and a file without
    comments in play: the chunks of the loop and of the append, each one
    physical line, then the marker. *)
Lemma output_lines_comment_free p content :
  (use_max p && use_min p)%bool = false ->
  comment p = "" ->
  is_token (domain p) = true ->
  is_token (limit_type p) = true ->
  is_token (limit_item p) = true ->
  (forall line, In line (Py.readlines content) ->
     Py.startswith line "#" = true \/ old_comment_of line = "") ->
  (forall line, In line (Py.readlines content) ->
     is_sentinel line = true \/ Py.endswith_nl line = true) ->
  List.existsb line_bad_value (Py.readlines content) = false ->
  exists BT,
    Py.readlines (rewrite_file p content)
      = BT ++ (if List.existsb is_sentinel (Py.readlines content)
               then [EOF_MARK] else []) /\
    rewrite_file p content
      = Py.join (BT ++ (if List.existsb is_sentinel (Py.readlines content)
                        then [EOF_MARK] else [])) /\
    List.existsb (line_matches p) BT = true /\
    forall ch, In ch BT ->
      line_bad_value ch = false /\ line_rewritten p ch = false /\
      is_sentinel ch = false /\
      (ch = record_text p "" \/ In ch (Py.readlines content)).
Proof.
  intros Hflags Hcom Hd Ht Hi Hcf Hnl Hbad.
  destruct (record_text_facts p Hd Ht Hi)
    as (Rbad & Rrw & Rm & Rs & Rl & Rnl).
  destruct (rewrite_lines_comment_free p _ Rm Hcf) as [Hchunks Hkey].
  set (lines := Py.readlines content) in *.
  set (R := record_text p "") in *.
  set (BT := rewrite_lines p "" lines
               ++ (if List.existsb (line_matches p) lines then [] else [R])).
  set (marker := if List.existsb is_sentinel lines
                 then [EOF_MARK] else @nil string).
  assert (Hout : rewrite_file p content = Py.join (BT ++ marker)).
  { unfold rewrite_file. cbv zeta. fold lines. rewrite Hcom.
    rewrite (comment_after_empty lines Hcf). fold R.
    rewrite app_assoc. reflexivity. }
  assert (HBT : forall ch, In ch BT ->
            ch = R \/ (In ch lines /\ is_sentinel ch = false /\
                       line_rewritten p ch = false)).
  { intros ch Hch. apply in_app_or in Hch. destruct Hch as [Hch|Hch];
      [apply Hchunks, Hch|].
    destruct (List.existsb (line_matches p) lines); [destruct Hch|].
    destruct Hch as [<-|[]]. left. reflexivity. }
  assert (Hgood : forall ch, In ch BT ->
            line_bad_value ch = false /\ line_rewritten p ch = false /\
            is_sentinel ch = false /\
            Py.readlines ch = [ch] /\ Py.endswith_nl ch = true /\
            (ch = R \/ In ch lines)).
  { intros ch Hch. destruct (HBT ch Hch) as [->|(Hin & Hs & Hw)]; [auto 7|].
    repeat split; auto.
    - apply (proj1 (existsb_false line_bad_value lines) Hbad ch Hin).
    - apply (readlines_element_single content ch Hin).
    - destruct (Hnl ch Hin) as [H|H]; [congruence|exact H]. }
  exists BT. split; [|split; [exact Hout|split]].
  - rewrite Hout, join_app, readlines_join.
    2:{ intros l Hl. destruct (Hgood l Hl) as (_ & _ & _ & H1 & H2 & _).
        split; assumption. }
    f_equal. unfold marker.
    destruct (List.existsb is_sentinel lines); reflexivity.
  - unfold BT. rewrite List.existsb_app.
    destruct (List.existsb (line_matches p) lines) eqn:K.
    + rewrite (Hkey eq_refl). reflexivity.
    + cbn [List.existsb]. rewrite Rm. apply orb_true_iff. right. reflexivity.
  - intros ch Hch. destruct (Hgood ch Hch) as (H1 & H2 & H3 & _ & _ & H4).
    auto.
Qed.

Lemma second_run_same (p : params) (content out m : string) (c : bool) :
  (use_max p && use_min p)%bool = false ->
  comment p = "" ->
  is_token (domain p) = true ->
  is_token (limit_type p) = true ->
  is_token (limit_item p) = true ->
  (forall line, In line (Py.readlines content) ->
     Py.startswith line "#" = true \/ old_comment_of line = "") ->
  (forall line, In line (Py.readlines content) ->
     is_sentinel line = true \/ Py.endswith_nl line = true) ->
  run p content = Some (out, c, m) ->
  exists m', run p out = Some (out, false, m').
Proof.
  intros Hflags Hcom Hd Ht Hi Hcf Hnl Hrun.
  pose proof (run_some_no_bad_value p content _ Hrun) as Hbad.
  destruct (run_rewrite_file p content Hflags Hbad) as [m0 Hrun0].
  rewrite Hrun in Hrun0. injection Hrun0 as -> _ _.
  destruct (output_lines_comment_free p content Hflags Hcom Hd Ht Hi Hcf
              Hnl Hbad) as (BT & Hlines2 & Hout & Hm & Hgood).
  set (marker := if List.existsb is_sentinel (Py.readlines content)
                 then [EOF_MARK] else @nil string) in *.
  assert (Hmark : forall ch, In ch marker -> ch = EOF_MARK).
  { unfold marker. intros ch.
    destruct (List.existsb is_sentinel (Py.readlines content)); [|intros []].
    intros [<-|[]]. reflexivity. }
  assert (Hbad2 : List.existsb line_bad_value (BT ++ marker) = false).
  { apply existsb_false. intros ch Hch. apply in_app_or in Hch.
    destruct Hch as [Hch|Hch]; [apply Hgood, Hch|].
    rewrite (Hmark ch Hch). reflexivity. }
  assert (Hrw2 : List.existsb (line_rewritten p) (BT ++ marker) = false).
  { apply existsb_false. intros ch Hch. apply in_app_or in Hch.
    destruct Hch as [Hch|Hch]; [apply Hgood, Hch|].
    rewrite (Hmark ch Hch). reflexivity. }
  assert (Hm2 : List.existsb (line_matches p) (BT ++ marker) = true).
  { rewrite List.existsb_app, Hm. reflexivity. }
  assert (Hf2 : List.filter not_sentinel (BT ++ marker) = BT).
  { rewrite List.filter_app.
    assert (H1 : List.filter not_sentinel BT = BT).
    { apply filter_no_sentinel. apply existsb_false.
      intros ch Hch. apply Hgood, Hch. }
    assert (H2 : List.filter not_sentinel marker = []).
    { unfold marker.
      destruct (List.existsb is_sentinel (Py.readlines content));
        reflexivity. }
    rewrite H1, H2. apply app_nil_r. }
  assert (Hs2 : (if List.existsb is_sentinel (BT ++ marker)
                 then [EOF_MARK] else []) = marker).
  { rewrite List.existsb_app.
    assert (H1 : List.existsb is_sentinel BT = false).
    { apply existsb_false. intros ch Hch. apply Hgood, Hch. }
    rewrite H1. unfold marker.
    destruct (List.existsb is_sentinel (Py.readlines content));
      reflexivity. }
  rewrite <- Hlines2 in Hbad2, Hrw2, Hm2, Hf2, Hs2.
  destruct (run_rewrite_file p (rewrite_file p content) Hflags Hbad2)
    as [m' Hrun2].
  exists m'. rewrite Hrun2. f_equal. f_equal. f_equal.
  - unfold rewrite_file at 1. cbv zeta.
    rewrite (rewrite_lines_unchanged p _ _ Hrw2), Hf2, Hm2, Hs2.
    cbn [app]. symmetry. exact Hout.
  - unfold reports_change. cbv zeta. rewrite Hrw2, Hm2. reflexivity.
Qed.

(** X9. Idempotence where it holds. For a request without comment whose
    domain, type and item are plain tokens, on a file in which only
    comment lines contain a hash and every line other than a marker line
    ends with a newline, a second run on the output of a run reports no
    change and writes the same content. *)
Theorem second_run_unchanged (p : params) (content out m : string) (c : bool) :
  (use_max p && use_min p)%bool = false ->
  comment p = "" ->
  is_token (domain p) = true ->
  is_token (limit_type p) = true ->
  is_token (limit_item p) = true ->
  (forall line, In line (Py.readlines content) ->
     Py.startswith line "#" = true \/ old_comment_of line = "") ->
  (forall line, In line (Py.readlines content) ->
     is_sentinel line = true \/ Py.endswith_nl line = true) ->
  run p content = Some (out, c, m) ->
  exists m', run p out = Some (out, false, m').
Proof. apply second_run_same. Qed.

Lemma second_run_unchanged_witness :
  exists m',
    run (Sample.joe 200 "") (Sample.joe_line "200" "" +:+ "# End of file")
      = Some (Sample.joe_line "200" "" +:+ "# End of file", false, m').
Proof.
  apply (second_run_unchanged (Sample.joe 200 "") Sample.two_marks
           (Sample.joe_line "200" "" +:+ "# End of file")
           (Sample.joe_line "200" "") true); try reflexivity.
  - intros line [<-|[<-|[<-|[]]]]; first [left; reflexivity | right; reflexivity].
  - intros line [<-|[<-|[<-|[]]]]; first [left; reflexivity | right; reflexivity].
Defined.

(** X10. What the module is for. For a request without comment whose
    domain, type and item are plain tokens, on a file in which only
    comment lines contain a hash and every line other than a marker line
    ends with a newline, the output of a run has a record of the requested
    key, and every record of that key in it satisfies the policy: its
    value is not below the requested one under [use_max], not above it
    under [use_min], and equal to it otherwise. *)
Theorem policy_holds_after_run (p : params) (content out m : string)
    (c : bool) :
  (use_max p && use_min p)%bool = false ->
  comment p = "" ->
  is_token (domain p) = true ->
  is_token (limit_type p) = true ->
  is_token (limit_item p) = true ->
  (forall line, In line (Py.readlines content) ->
     Py.startswith line "#" = true \/ old_comment_of line = "") ->
  (forall line, In line (Py.readlines content) ->
     is_sentinel line = true \/ Py.endswith_nl line = true) ->
  run p content = Some (out, c, m) ->
  List.existsb (line_matches p) (Py.readlines out) = true /\
  forall line d t i v,
    In line (Py.readlines out) ->
    classify line = RecordLine d t i v ->
    key_matches p d t i = true ->
    if use_max p then value p <= v
    else if use_min p then v <= value p
    else v = value p.
Proof.
  intros Hflags Hcom Hd Ht Hi Hcf Hnl Hrun.
  pose proof (run_some_no_bad_value p content _ Hrun) as Hbad.
  destruct (run_rewrite_file p content Hflags Hbad) as [m0 Hrun0].
  rewrite Hrun in Hrun0. injection Hrun0 as -> _ _.
  destruct (output_lines_comment_free p content Hflags Hcom Hd Ht Hi Hcf
              Hnl Hbad) as (BT & Hlines2 & _ & Hm & Hgood).
  rewrite Hlines2. split.
  - rewrite List.existsb_app, Hm. reflexivity.
  - intros line d t i v Hin Hc Hk. apply in_app_or in Hin.
    destruct Hin as [Hin|Hin].
    + destruct (Hgood line Hin) as (_ & Hrw & _).
      unfold line_rewritten in Hrw. rewrite Hc, Hk in Hrw.
      cbn [andb] in Hrw. apply negb_false_iff, Z.eqb_eq in Hrw.
      unfold policy_value in Hrw.
      destruct (use_max p); [lia|]. destruct (use_min p); [lia|].
      congruence.
    + destruct (List.existsb is_sentinel (Py.readlines content));
        [|destruct Hin].
      destruct Hin as [<-|[]]. discriminate Hc.
Qed.

Lemma policy_holds_after_run_witness :
  List.existsb (line_matches (Sample.joe 200 ""))
    (Py.readlines (Sample.joe_line "200" "" +:+ "# End of file")) = true /\
  forall line d t i v,
    In line (Py.readlines (Sample.joe_line "200" "" +:+ "# End of file")) ->
    classify line = RecordLine d t i v ->
    key_matches (Sample.joe 200 "") d t i = true ->
    if use_max (Sample.joe 200 "") then value (Sample.joe 200 "") <= v
    else if use_min (Sample.joe 200 "") then v <= value (Sample.joe 200 "")
    else v = value (Sample.joe 200 "").
Proof.
  apply (policy_holds_after_run (Sample.joe 200 "") Sample.two_marks
           (Sample.joe_line "200" "" +:+ "# End of file")
           (Sample.joe_line "200" "") true); try reflexivity.
  - intros line [<-|[<-|[<-|[]]]]; first [left; reflexivity | right; reflexivity].
  - intros line [<-|[<-|[<-|[]]]]; first [left; reflexivity | right; reflexivity].
Defined.

(** ** The reported line and the comment variable *)

Lemma process_line_message p st line st' :
  (use_max p && use_min p)%bool = false ->
  new_value_ok p st ->
  process_line p st line = Normal st' ->
  message st' =
    (if line_matches p line
     then (if line_rewritten p line then new_limit p st' else line)
     else message st).
Proof.
  intros Hflags Hinv. unfold line_matches, line_rewritten.
  by_class p st line; cbv zeta; try discriminate;
    try (intros [= <-]; reflexivity).
  destruct (key_matches p d t i) eqn:K; cbn [andb];
    [|intros [= <-]; reflexivity].
  destruct (value p =? actual_value) eqn:V.
  { apply Z.eqb_eq in V.
    assert (Hp : (policy_value p actual_value =? actual_value) = true).
    { apply Z.eqb_eq. unfold policy_value. rewrite <- V.
      destruct (use_max p); [lia|]. destruct (use_min p); [lia|].
      reflexivity. }
    rewrite Hp. intros [= <-]. reflexivity. }
  unfold policy_value.
  destruct (use_max p) eqn:Hmax, (use_min p) eqn:Hmin;
    try discriminate Hflags;
    cbn [new_value set_new_value set_found set_new_comment].
  - destruct (Z.max (value p) actual_value =? actual_value);
      cbn [negb]; intros [= <-]; reflexivity.
  - destruct (Z.min (value p) actual_value =? actual_value);
      cbn [negb]; intros [= <-]; reflexivity.
  - rewrite (Hinv Hmax Hmin), V. cbn [negb].
    intros [= <-]. reflexivity.
Qed.

Lemma for_lines_message p lines : forall st,
  (use_max p && use_min p)%bool = false ->
  new_value_ok p st ->
  List.existsb line_bad_value lines = false ->
  exists st',
    for_lines p lines st = (st', None) /\
    message st' = message_after p (new_comment st) (message st) lines.
Proof.
  induction lines as [|line rest IH]; intros st Hflags Hinv; simpl.
  - intros _. exists st. auto.
  - intros H. apply orb_false_elim in H. destruct H as [Hl Hr].
    destruct (process_line_effect p st line Hflags Hinv Hl)
      as (s & Hstep & _ & _ & _ & Hcom & _ & Hrw & Hinv').
    pose proof (process_line_message p st line s Hflags Hinv Hstep) as Hm.
    rewrite Hstep. fold (line_comment (new_comment st) line) in Hcom.
    destruct (IH s Hflags Hinv' Hr) as (st' & Hrun & Hm').
    exists st'. split; [exact Hrun|]. rewrite Hm', Hm, Hcom.
    destruct (line_matches p line); [|reflexivity].
    destruct (line_rewritten p line); [|reflexivity].
    unfold new_limit, record_text. rewrite (Hrw eq_refl), Hcom. reflexivity.
Qed.

(** The whole result of a run on a file without a bad value. *)
Lemma run_result p content :
  (use_max p && use_min p)%bool = false ->
  List.existsb line_bad_value (Py.readlines content) = false ->
  run p content =
    Some (rewrite_file p content, reports_change p content,
          reports_line p content).
Proof.
  intros Hflags Hbad.
  destruct (run_rewrite_file p content Hflags Hbad) as [m Hrun].
  rewrite Hrun. do 2 f_equal.
  destruct (for_lines_message p _ (initial p) Hflags
              (initial_new_value_ok p) Hbad) as (st & Hloop & Hm).
  destruct (for_lines_rewrite p _ (initial p) Hflags
              (initial_new_value_ok p) Hbad) as (st2 & Hloop2 & _ & Hcom).
  destruct (run_effect p content Hflags Hbad)
    as (st1 & chunks & Hloop1 & Hf & _ & _ & _ & _ & _ & Hrec).
  rewrite Hloop in Hloop1, Hloop2.
  injection Hloop1 as <-. injection Hloop2 as <-.
  cbn [new_comment message initial] in Hm, Hcom.
  pose proof (found_false_new_value p _ _ _ _ Hloop) as Hv.
  cbn [new_value initial] in Hv.
  unfold run in Hrun. rewrite Hrec in Hrun. injection Hrun as _ _ <-.
  unfold reports_line. cbv zeta. rewrite <- Hf.
  unfold write_eof, append_missing, nf_write, set_message, set_changed.
  destruct (found st) eqn:F; cbn [has_eof message].
  - destruct (has_eof st); cbn [message]; exact Hm.
  - assert (Hn : new_limit p
                   {| nf := nf st; found := found st; has_eof := has_eof st;
                      new_value := new_value st;
                      new_comment := new_comment st; changed := true;
                      message := message st |}
                 = record_text p
                     (comment_after (comment p) (Py.readlines content))).
    { unfold new_limit, record_text. cbn [new_value new_comment].
      rewrite (Hv eq_refl), Hcom. reflexivity. }
    rewrite F in Hn.
    destruct (has_eof st); cbn [message]; exact Hn.
Qed.

(** X8. A run on a file without a bad value is the map over its lines
    that [rewrite_file] describes: marker lines are dropped, the records
    of the key whose value the policy replaces become the record with the
    requested value and the comment variable as it stands after that line,
    every other line is copied; a record is added when the key is absent,
    the marker when there was one. [changed] is [reports_change], and [msg]
    is the appended record or what was written for the last record of the
    key. *)
Theorem run_is_rewrite_file (p : params) (content : string) :
  (use_max p && use_min p)%bool = false ->
  List.existsb line_bad_value (Py.readlines content) = false ->
  run p content =
    Some (rewrite_file p content, reports_change p content,
          reports_line p content).
Proof. apply run_result. Qed.

Lemma run_is_rewrite_file_witness :
  run (Sample.joe 200 "") Sample.two_records =
    Some (rewrite_file (Sample.joe 200 "") Sample.two_records,
          reports_change (Sample.joe 200 "") Sample.two_records,
          reports_line (Sample.joe 200 "") Sample.two_records).
Proof.
  apply (run_is_rewrite_file (Sample.joe 200 "") Sample.two_records);
    reflexivity.
Defined.

Lemma line_comment_classify c line :
  line_comment c line =
    match classify line with
    | Sentinel | CommentLine | Blank => c
    | _ => next_comment c line
    end.
Proof.
  unfold line_comment, classify.
  destruct (Py.startswith line EOF_MARK) eqn:E.
  { rewrite (startswith_mark_hash line E). reflexivity. }
  destruct (Py.startswith line "#"); [reflexivity|].
  destruct (Py.is_empty (normalized line)); [reflexivity|].
  destruct (line_fields_of line) as [|a [|b [|x [|f3 [|e l]]]]];
    try reflexivity.
  destruct (Py.int f3); reflexivity.
Qed.

(** The comment variable after one step, whatever the flags. *)
Lemma process_line_comment p st line st' :
  process_line p st line = Normal st' ->
  new_comment st' = line_comment (new_comment st) line.
Proof.
  rewrite line_comment_classify.
  by_class p st line; cbv zeta; try discriminate;
    try (intros [= <-]; reflexivity).
  destruct (key_matches p d t i); [|intros [= <-]; reflexivity].
  destruct (value p =? actual_value); [intros [= <-]; reflexivity|].
  match goal with |- context [negb ?b] => destruct b end;
    intros [= <-]; destruct (use_max p), (use_min p); reflexivity.
Qed.

Lemma for_lines_comment p lines : forall st st',
  for_lines p lines st = (st', None) ->
  new_comment st' = comment_after (new_comment st) lines.
Proof.
  induction lines as [|line rest IH]; intros st st'; simpl.
  - intros [= <-]. reflexivity.
  - destruct (process_line p st line) as [s|e] eqn:E; [|discriminate].
    intros H. rewrite (IH _ _ H), (process_line_comment p st line s E).
    reflexivity.
Qed.

Lemma tab_hash_shift n c :
  tab_hash n (Py.TAB +:+ "#" +:+ c) = Py.TAB +:+ "#" +:+ tab_hash n c.
Proof.
  induction n as [|k IH]; [reflexivity|]. cbn [tab_hash]. rewrite IH.
  reflexivity.
Qed.

Lemma comment_after_requested lines : forall c,
  c <> "" ->
  comment_after c lines
    = tab_hash (length (List.filter reaches_comment lines)) c.
Proof.
  unfold comment_after.
  induction lines as [|line rest IH]; intros c Hc; [reflexivity|].
  cbn [fold_left List.filter]. unfold line_comment at 2, reaches_comment at 1.
  destruct (Py.startswith line "#"); cbn [negb andb]; [apply IH, Hc|].
  destruct (Py.is_empty (normalized line)); cbn [negb]; [apply IH, Hc|].
  unfold next_comment. destruct c as [|x c]; [congruence|].
  cbn [Py.is_empty length]. rewrite IH by discriminate.
  apply tab_hash_shift.
Qed.

(** X11. With a comment in the request, the comment variable never takes
    the comment of a line: after the loop it is the requested comment with
    one tab and hash in front of it for every line read that is neither a
    comment line nor blank, and with none when there was no such line. *)
Theorem requested_comment_prefixed (p : params) (lines : list string)
    (st : loop_state) :
  comment p <> "" ->
  for_lines p lines (initial p) = (st, None) ->
  new_comment st
    = tab_hash (length (List.filter reaches_comment lines)) (comment p).
Proof.
  intros Hc Hrun. rewrite (for_lines_comment p lines _ _ Hrun).
  apply comment_after_requested. exact Hc.
Qed.

Lemma requested_comment_prefixed_witness :
  new_comment
    (fst (for_lines (Sample.joe 200 "max files")
            (Py.readlines Sample.two_records)
            (initial (Sample.joe 200 "max files"))))
    = Py.TAB +:+ "#" +:+ Py.TAB +:+ "#" +:+ "max files".
Proof.
  apply (requested_comment_prefixed (Sample.joe 200 "max files")
           (Py.readlines Sample.two_records)
           (fst (for_lines (Sample.joe 200 "max files")
                   (Py.readlines Sample.two_records)
                   (initial (Sample.joe 200 "max files")))));
    [discriminate | reflexivity].
Defined.

(** X12. Two calls of [main] in a row, under the conditions of X9: both
    commit, the second reports no change, and the target holds after the
    second call what it held after the first. *)
Theorem main_twice (tmp_name backup_name : string) (p : params)
    (fs : gmap string file) (f : file) :
  fs !! dest p = Some f ->
  writable f = true ->
  (use_max p && use_min p)%bool = false ->
  tmp_name <> dest p ->
  backup_name <> dest p ->
  tmp_name <> backup_name ->
  comment p = "" ->
  is_token (domain p) = true ->
  is_token (limit_type p) = true ->
  is_token (limit_item p) = true ->
  (forall line, In line (Py.readlines (data f)) ->
     Py.startswith line "#" = true \/ old_comment_of line = "") ->
  (forall line, In line (Py.readlines (data f)) ->
     is_sentinel line = true \/ Py.endswith_nl line = true) ->
  List.existsb line_bad_value (Py.readlines (data f)) = false ->
  exists fs1 fs2 c m1 m2 out,
    main tmp_name backup_name p fs =
      (fs1, exit_json c m1 (if backup p then Some backup_name else None)) /\
    fs1 !! dest p = Some (File true out) /\
    main tmp_name backup_name p fs1 =
      (fs2, exit_json false m2
              (if backup p then Some backup_name else None)) /\
    fs2 !! dest p = Some (File true out).
Proof.
  intros Hf Hw Hflags Htd Hbd Htb Hcom Hd Ht Hi Hcf Hnl Hbad.
  pose proof (run_result p (data f) Hflags Hbad) as Hrun.
  destruct (main_commit_fs tmp_name backup_name p fs f _ _ _
              Hf Hw Hflags Htd Hbd Htb Hrun) as (fs1 & Hm1 & Hd1 & _ & _).
  rewrite Hw in Hd1.
  destruct (second_run_same p (data f) _ _ _ Hflags Hcom Hd Ht Hi Hcf Hnl
              Hrun) as [m2 Hrun2].
  destruct (main_commit_fs tmp_name backup_name p fs1
              (File true (rewrite_file p (data f))) _ _ _
              Hd1 eq_refl Hflags Htd Hbd Htb Hrun2)
    as (fs2 & Hm2 & Hd2 & _ & _).
  exists fs1, fs2, (reports_change p (data f)), (reports_line p (data f)),
    m2, (rewrite_file p (data f)).
  repeat split; assumption.
Qed.

Lemma main_twice_witness :
  exists fs1 fs2 c m1 m2 out,
    main Sample.tmp Sample.bak (Sample.joe 200 "")
      (Sample.fs_with Sample.two_marks) =
      (fs1, exit_json c m1 None) /\
    fs1 !! Sample.limits_conf = Some (File true out) /\
    main Sample.tmp Sample.bak (Sample.joe 200 "") fs1 =
      (fs2, exit_json false m2 None) /\
    fs2 !! Sample.limits_conf = Some (File true out).
Proof.
  apply (main_twice Sample.tmp Sample.bak (Sample.joe 200 "")
           (Sample.fs_with Sample.two_marks) (File true Sample.two_marks));
    try reflexivity; try discriminate.
  - intros line [<-|[<-|[<-|[]]]]; first [left; reflexivity | right; reflexivity].
  - intros line [<-|[<-|[<-|[]]]]; first [left; reflexivity | right; reflexivity].
Defined.

Lemma choices_are_tokens :
  Forall (fun s => is_token s = true) pam_types /\
  Forall (fun s => is_token s = true) pam_items.
Proof. split; repeat constructor. Qed.

(** X13. For a request that the argument specification accepts
    ([limit_type] among [pam_types], [limit_item] among [pam_items]) no
    condition on the type and the item is left: as soon as the domain is a
    plain token, the record the module writes without comment is one
    physical line that is read back as the record of the request, is not
    taken for a marker line and is left alone by a later run. *)
Theorem accepted_request_reads_back (p : params) :
  In (limit_type p) pam_types ->
  In (limit_item p) pam_items ->
  is_token (domain p) = true ->
  Py.readlines (record_text p "") = [record_text p ""] /\
  classify (record_text p "")
    = RecordLine (domain p) (limit_type p) (limit_item p) (value p) /\
  is_sentinel (record_text p "") = false /\
  line_rewritten p (record_text p "") = false.
Proof.
  intros Ht Hi Hd.
  destruct choices_are_tokens as [Ctypes Citems].
  rewrite List.Forall_forall in Ctypes, Citems.
  pose proof (Ctypes _ Ht) as Tt. pose proof (Citems _ Hi) as Ti.
  destruct (record_text_facts p Hd Tt Ti) as (_ & Hrw & _ & Hs & Hl & _).
  repeat split; try assumption.
  apply record_text_fields; auto.
Qed.

Lemma accepted_request_reads_back_witness :
  Py.readlines (record_text (Sample.joe 64000 "") "")
    = [record_text (Sample.joe 64000 "") ""] /\
  classify (record_text (Sample.joe 64000 "") "")
    = RecordLine "joe" "soft" "nofile" 64000 /\
  is_sentinel (record_text (Sample.joe 64000 "") "") = false /\
  line_rewritten (Sample.joe 64000 "") (record_text (Sample.joe 64000 "") "")
    = false.
Proof.
  apply (accepted_request_reads_back (Sample.joe 64000 "")).
  - simpl. auto.
  - simpl. auto 10.
  - reflexivity.
Defined.

(** ** The marker among the lines of the output *)

Lemma no_newline_nl_at_end c : no_newline c = true -> nl_at_end_only c = true.
Proof.
  induction c as [|x c IH]; [reflexivity|]. cbn [no_newline nl_at_end_only].
  intros H. apply andb_prop in H. destruct H as [Hx Hc].
  apply negb_true_iff in Hx. rewrite Hx. exact (IH Hc).
Qed.

Lemma nl_at_end_cases c :
  nl_at_end_only c = true ->
  no_newline c = true \/ exists u, c = u +:+ Py.NL /\ no_newline u = true.
Proof.
  induction c as [|x c IH]; [left; reflexivity|].
  cbn [nl_at_end_only no_newline]. destruct (Ascii.eqb x "010") eqn:Hx.
  - intros Hc. destruct c; [|discriminate]. apply Ascii.eqb_eq in Hx.
    subst x. right. exists "". split; reflexivity.
  - intros Hc. destruct (IH Hc) as [Hn | (u & -> & Hu)].
    + left. rewrite Hn. reflexivity.
    + right. exists (String x u). split; [reflexivity|].
      cbn [no_newline]. rewrite Hx, Hu. reflexivity.
Qed.

Lemma readlines_element_nl_at_end s : forall l,
  In l (Py.readlines s) -> nl_at_end_only l = true.
Proof.
  induction s as [|c r IH]; intros l; [intros []|].
  cbn [Py.readlines]. destruct (Ascii.eqb c "010") eqn:Hc.
  - intros [<-|Hl]; [|apply IH, Hl].
    cbn [nl_at_end_only]. rewrite Hc. reflexivity.
  - destruct (Py.readlines r) as [|l0 ls] eqn:Hr.
    + intros [<-|[]]. cbn [nl_at_end_only]. rewrite Hc. reflexivity.
    + intros [<-|Hl]; [|apply IH; right; exact Hl].
      cbn [nl_at_end_only]. rewrite Hc. apply IH. left. reflexivity.
Qed.

Lemma old_comment_nl_at_end line :
  nl_at_end_only line = true -> nl_at_end_only (old_comment_of line) = true.
Proof.
  unfold old_comment_of. induction line as [|c r IH]; [reflexivity|].
  cbn [nl_at_end_only Py.split1]. destruct (Ascii.eqb c "#") eqn:Hh.
  - apply Ascii.eqb_eq in Hh. subst c.
    change (Ascii.eqb "#" "010") with false. cbv iota. cbn [snd]. auto.
  - destruct (Ascii.eqb c "010").
    + destruct r; [reflexivity|discriminate].
    + intros Hr. specialize (IH Hr).
      destruct (Py.split1 "#" r) as [h t]. exact IH.
Qed.

Lemma line_comment_nl_at_end c line :
  nl_at_end_only c = true -> nl_at_end_only line = true ->
  nl_at_end_only (line_comment c line) = true.
Proof.
  intros Hc Hl. unfold line_comment, next_comment.
  destruct (Py.startswith line "#"); [exact Hc|].
  destruct (Py.is_empty (normalized line)); [exact Hc|].
  pose proof (old_comment_nl_at_end line Hl) as Ho.
  destruct (Py.is_empty c);
    match goal with |- context [Py.is_empty ?x] => destruct (Py.is_empty x) end;
    assumption.
Qed.

(** What one step of the loop writes, whatever the flags. *)
Lemma process_line_written p st line st' :
  process_line p st line = Normal st' ->
  nf st' = nf st \/
  (is_sentinel line = false /\ nf st' = nf st ++ [line]) \/
  nf st' = nf st ++ [new_limit p st'].
Proof.
  destruct (is_sentinel line) eqn:S.
  { rewrite (process_line_is_sentinel p st line S). intros [= <-].
    left. reflexivity. }
  rewrite is_sentinel_classify in S.
  by_class p st line; cbv zeta; try discriminate;
    try (intros [= <-]; right; left; split; reflexivity).
  destruct (key_matches p d t i);
    [|intros [= <-]; right; left; split; reflexivity].
  destruct (value p =? actual_value);
    [intros [= <-]; right; left; split; reflexivity|].
  match goal with |- context [negb ?b] => destruct b end; intros [= <-];
    destruct (use_max p), (use_min p);
    first [ right; left; split; reflexivity | right; right; reflexivity ].
Qed.

Lemma for_lines_written p lines0 lines : forall st st' e,
  (forall l, In l lines -> In l lines0) ->
  (forall l, In l lines0 -> nl_at_end_only l = true) ->
  for_lines p lines st = (st', e) ->
  nl_at_end_only (new_comment st) = true ->
  Forall (written_chunk p lines0) (nf st) ->
  nl_at_end_only (new_comment st') = true /\
  Forall (written_chunk p lines0) (nf st').
Proof.
  induction lines as [|line rest IH]; intros st st' e Hsub Hnl; simpl.
  - intros [= <- _]. auto.
  - destruct (process_line p st line) as [s|x] eqn:E;
      [|intros [= <- _]; auto].
    intros Hrun Hc HF.
    assert (Hin : In line lines0) by (apply Hsub; left; reflexivity).
    assert (Hc' : nl_at_end_only (new_comment s) = true).
    { rewrite (process_line_comment p st line s E).
      apply line_comment_nl_at_end; auto. }
    apply (IH s st' e); auto.
    + intros l Hl. apply Hsub. right. exact Hl.
    + destruct (process_line_written p st line s E) as [H|[[S H]|H]];
        rewrite H; [exact HF|..]; apply Forall_app; (split; [exact HF|]);
        (constructor; [|constructor]).
      * left. auto.
      * right. eauto.
Qed.

Lemma new_limit_prefix p st :
  new_limit p st =
    (domain p +:+ Py.TAB +:+ limit_type p +:+ Py.TAB +:+ limit_item p
       +:+ Py.TAB +:+ Py.str (new_value st)) +:+ new_comment st +:+ Py.NL.
Proof. unfold new_limit. rewrite !append_assoc_str. reflexivity. Qed.

(** The lines of a record: the record up to the first newline, and a bare
    newline when the comment variable ends with one. *)
Lemma record_lines a c :
  no_newline a = true -> nl_at_end_only c = true ->
  forall l, In l (Py.readlines (a +:+ c +:+ Py.NL)) ->
            l = Py.NL \/ exists t, l = a +:+ t.
Proof.
  intros Ha Hc l. destruct (nl_at_end_cases c Hc) as [Hn | (u & -> & Hu)].
  - rewrite <- append_assoc_str.
    rewrite (readlines_no_newline (a +:+ c) (no_newline_app a c Ha Hn)).
    intros [<-|[]]. right. exists (c +:+ Py.NL).
    apply append_assoc_str.
  - replace (a +:+ (u +:+ Py.NL) +:+ Py.NL)
      with (((a +:+ u) +:+ Py.NL) +:+ Py.NL)
      by (rewrite !append_assoc_str; reflexivity).
    rewrite readlines_app
      by (right; apply endswith_nl_app; reflexivity).
    rewrite (readlines_no_newline (a +:+ u) (no_newline_app a u Ha Hu)).
    intros [<-|[<-|[]]].
    + right. exists (u +:+ Py.NL). apply append_assoc_str.
    + left. reflexivity.
Qed.

Lemma not_hash_not_sentinel s :
  Py.startswith s "#" = false -> is_sentinel s = false.
Proof.
  intros H. unfold is_sentinel.
  destruct (Py.startswith s EOF_MARK) eqn:E; [|reflexivity].
  rewrite (startswith_mark_hash s E) in H. discriminate.
Qed.

Lemma startswith_hash_app d r :
  Py.startswith d "#" = false ->
  Py.startswith (d +:+ Py.TAB +:+ r) "#" = false.
Proof.
  destruct d as [|x d]; [reflexivity|]. rewrite app_cons.
  cbn [Py.startswith]. destruct (Ascii.eqb x "#"); [|reflexivity].
  cbn [andb]. intros H. destruct d; discriminate H.
Qed.

(** Every line of a chunk written before the marker ends the chunk with a
    newline and does not start with the marker, for a request without
    newlines whose domain does not start with a hash. *)
Lemma written_chunk_lines p lines ch :
  no_newline (domain p) = true ->
  no_newline (limit_type p) = true ->
  no_newline (limit_item p) = true ->
  Py.startswith (domain p) "#" = false ->
  (forall l, In l lines -> Py.readlines l = [l]) ->
  (forall l, In l lines -> is_sentinel l = true \/ Py.endswith_nl l = true) ->
  written_chunk p lines ch ->
  Py.endswith_nl ch = true /\
  forall l, In l (Py.readlines ch) -> is_sentinel l = false.
Proof.
  intros Hd Ht Hi Hh Hsingle Hnl [[Hin Hs] | (st & -> & Hc)].
  - split.
    + destruct (Hnl ch Hin) as [H|H]; [congruence|exact H].
    + rewrite (Hsingle ch Hin). intros l [<-|[]]. exact Hs.
  - split; [apply new_limit_endswith_nl|].
    rewrite new_limit_prefix. intros l Hl.
    apply record_lines in Hl; [| |exact Hc].
    + destruct Hl as [->|[t ->]]; [reflexivity|].
      apply not_hash_not_sentinel. rewrite !append_assoc_str.
      apply startswith_hash_app. exact Hh.
    + repeat apply no_newline_app; try assumption; try reflexivity.
      apply plain_no_newline, token_plain, str_is_token.
Qed.

Lemma readlines_concat chunks t :
  (forall ch, In ch chunks -> Py.endswith_nl ch = true) ->
  Py.readlines (Py.join chunks +:+ t)
    = flat_map Py.readlines chunks ++ Py.readlines t.
Proof.
  induction chunks as [|ch chunks IH]; intros H; [reflexivity|].
  cbn [Py.join fold_right flat_map]. fold (Py.join chunks).
  rewrite append_assoc_str.
  rewrite (readlines_app ch _ (or_intror (H ch (or_introl eq_refl)))).
  rewrite IH, <- app_assoc; [reflexivity|].
  intros x Hx. apply H. right. exact Hx.
Qed.

Lemma filter_none {A} (f : A -> bool) l :
  (forall x, In x l -> f x = false) -> List.filter f l = [].
Proof.
  induction l as [|a l IH]; intros H; [reflexivity|]. cbn [List.filter].
  rewrite (H a (or_introl eq_refl)). apply IH.
  intros x Hx. apply H. right. exact Hx.
Qed.

(** The lines of the output of a run: lines that do not start with the
    marker, then the marker when the input had a marker line. *)
Lemma output_lines_marker p content st :
  no_newline (domain p) = true ->
  no_newline (limit_type p) = true ->
  no_newline (limit_item p) = true ->
  no_newline (comment p) = true ->
  Py.startswith (domain p) "#" = false ->
  (forall line, In line (Py.readlines content) ->
     is_sentinel line = true \/ Py.endswith_nl line = true) ->
  reconcile p content = (st, None) ->
  exists front,
    Py.readlines (Py.join (nf st))
      = front ++ (if List.existsb is_sentinel (Py.readlines content)
                  then [EOF_MARK] else []) /\
    forall l, In l front -> is_sentinel l = false.
Proof.
  intros Hd Ht Hi Hc Hh Hnl. unfold reconcile, reconcile_lines.
  destruct (for_lines p (Py.readlines content) (initial p))
    as [s1 [e|]] eqn:E; [discriminate|].
  intros [= <-].
  destruct (for_lines_without_sentinels p _ _ _ false E) as [_ He].
  cbn [has_eof initial orb] in He.
  destruct (for_lines_written p (Py.readlines content) (Py.readlines content)
              (initial p) s1 None (fun l H => H)
              (readlines_element_nl_at_end content) E
              (no_newline_nl_at_end (comment p) Hc)
              (List.Forall_nil (written_chunk p (Py.readlines content))))
    as [Hc1 HF].
  assert (HB : Forall (written_chunk p (Py.readlines content))
                 (nf (append_missing p s1))).
  { unfold append_missing. destruct (found s1); [exact HF|].
    cbn [nf nf_write set_message]. apply Forall_app. split; [exact HF|].
    constructor; [|constructor]. right. eexists. split; [reflexivity|].
    exact Hc1. }
  assert (Heof : has_eof (append_missing p s1) = has_eof s1)
    by (unfold append_missing; destruct (found s1); reflexivity).
  rewrite List.Forall_forall in HB.
  assert (Hlines : forall ch, In ch (nf (append_missing p s1)) ->
            Py.endswith_nl ch = true /\
            forall l, In l (Py.readlines ch) -> is_sentinel l = false).
  { intros ch Hch.
    apply (written_chunk_lines p (Py.readlines content) ch); auto.
    apply readlines_element_single. }
  exists (flat_map Py.readlines (nf (append_missing p s1))). split.
  - unfold write_eof. rewrite Heof, He.
    destruct (List.existsb is_sentinel (Py.readlines content)).
    + cbn [nf nf_write]. rewrite join_snoc, readlines_concat;
        [reflexivity|]. intros ch Hch. apply Hlines, Hch.
    + rewrite app_nil_r. rewrite <- (append_empty_r (Py.join _)).
      rewrite readlines_concat; [apply app_nil_r|].
      intros ch Hch. apply Hlines, Hch.
  - intros l Hl. apply in_flat_map in Hl. destruct Hl as (ch & Hch & Hl).
    destruct (Hlines ch Hch) as [_ H]. apply H, Hl.
Qed.

(** C10 as stated fails: the lines of the output that start with the
    marker depend on the request too. With the marker text as domain, on a
    file that is the marker line alone, the appended record is a second
    line that starts with the marker. *)
Lemma sentinel_twice_counterexample :
  run Sample.marker_domain Sample.only_mark =
    Some ("# End of file" +:+ Py.TAB +:+ "soft" +:+ Py.TAB +:+ "nofile"
            +:+ Py.TAB +:+ "5" +:+ Py.NL +:+ "# End of file",
          true,
          "# End of file" +:+ Py.TAB +:+ "soft" +:+ Py.TAB +:+ "nofile"
            +:+ Py.TAB +:+ "5" +:+ Py.NL) /\
  List.filter is_sentinel
    (Py.readlines
       ("# End of file" +:+ Py.TAB +:+ "soft" +:+ Py.TAB +:+ "nofile"
          +:+ Py.TAB +:+ "5" +:+ Py.NL +:+ "# End of file"))
    = ["# End of file" +:+ Py.TAB +:+ "soft" +:+ Py.TAB +:+ "nofile"
         +:+ Py.TAB +:+ "5" +:+ Py.NL;
       "# End of file"].
Proof. split; reflexivity. Qed.

(** A last line without a newline does the same with an ordinary domain:
    the appended record is glued to it, and here the two together start
    with the marker. *)
Example sentinel_twice_open_comment :
  run Sample.file_domain Sample.mark_then_open_comment =
    Some ("# End of file" +:+ Py.TAB +:+ "soft" +:+ Py.TAB +:+ "nofile"
            +:+ Py.TAB +:+ "5" +:+ Py.NL +:+ "# End of file",
          true,
          "file" +:+ Py.TAB +:+ "soft" +:+ Py.TAB +:+ "nofile"
            +:+ Py.TAB +:+ "5" +:+ Py.NL).
Proof. reflexivity. Qed.

(** C10, amended. A line that starts with the marker is consumed: the
    loop writes nothing for it. For a request whose domain, type, item and
    comment have no newline and whose domain does not start with a hash,
    on a file in which every line other than a marker line ends with a
    newline, the output of a run is the output of the same run on the
    input without its marker lines, followed by [# End of file] without a
    newline when the input has at least one marker line (however many,
    wherever they stand); that is then the last line of the output and
    the only one that starts with the marker, and without a marker line
    in the input no line of the output starts with it. *)
Theorem sentinel_single_trailing_line (p : params) (content out m : string)
    (c : bool) :
  no_newline (domain p) = true ->
  no_newline (limit_type p) = true ->
  no_newline (limit_item p) = true ->
  no_newline (comment p) = true ->
  Py.startswith (domain p) "#" = false ->
  (forall line, In line (Py.readlines content) ->
     is_sentinel line = true \/ Py.endswith_nl line = true) ->
  run p content = Some (out, c, m) ->
  (forall s line,
     is_sentinel line = true ->
     process_line p s line = Normal (set_has_eof true s)) /\
  (exists st0,
     reconcile_lines p (List.filter not_sentinel (Py.readlines content))
       = (st0, None) /\
     out = Py.join (nf st0)
             +:+ (if List.existsb is_sentinel (Py.readlines content)
                  then EOF_MARK else "")) /\
  List.filter is_sentinel (Py.readlines out)
    = (if List.existsb is_sentinel (Py.readlines content)
       then [EOF_MARK] else []) /\
  (List.existsb is_sentinel (Py.readlines content) = true ->
   last (Py.readlines out) = Some EOF_MARK).
Proof.
  intros Hd Ht Hi Hc Hh Hnl Hrun. unfold run in Hrun.
  destruct (reconcile p content) as [st [e|]] eqn:Hr; [discriminate|].
  injection Hrun as <- _ _.
  destruct (sentinel_chunks p content st Hr)
    as (Hcons & (st0 & Hr0 & Hnf & _ & _) & _).
  destruct (output_lines_marker p content st Hd Ht Hi Hc Hh Hnl Hr)
    as (front & Hlines & Hfront).
  split; [exact Hcons|]. split; [|split].
  - exists st0. split; [exact Hr0|]. rewrite Hnf.
    destruct (List.existsb is_sentinel (Py.readlines content)).
    + apply join_snoc.
    + rewrite app_nil_r, append_empty_r. reflexivity.
  - rewrite Hlines, List.filter_app, (filter_none _ _ Hfront).
    destruct (List.existsb is_sentinel (Py.readlines content)); reflexivity.
  - intros Hs. rewrite Hlines, Hs. apply last_snoc.
Qed.

Lemma sentinel_single_trailing_line_witness :
  (forall s line,
     is_sentinel line = true ->
     process_line (Sample.joe 200 "") s line = Normal (set_has_eof true s)) /\
  (exists st0,
     reconcile_lines (Sample.joe 200 "")
       (List.filter not_sentinel (Py.readlines Sample.two_marks))
       = (st0, None) /\
     Sample.joe_line "200" "" +:+ "# End of file" =
       Py.join (nf st0)
         +:+ (if List.existsb is_sentinel (Py.readlines Sample.two_marks)
              then EOF_MARK else "")) /\
  List.filter is_sentinel
    (Py.readlines (Sample.joe_line "200" "" +:+ "# End of file"))
    = (if List.existsb is_sentinel (Py.readlines Sample.two_marks)
       then [EOF_MARK] else []) /\
  (List.existsb is_sentinel (Py.readlines Sample.two_marks) = true ->
   last (Py.readlines (Sample.joe_line "200" "" +:+ "# End of file"))
     = Some EOF_MARK).
Proof.
  apply (sentinel_single_trailing_line (Sample.joe 200 "") Sample.two_marks
           (Sample.joe_line "200" "" +:+ "# End of file")
           (Sample.joe_line "200" "") true); try reflexivity.
  intros line [<-|[<-|[<-|[]]]]; first [left; reflexivity | right; reflexivity].
Defined.
